(** * KalshiOrderbookData: order-book reconstruction and trade analytics

    A shallow embedding of
    - [kalshi_database.py]  (class [OrderbookDatabase]: the in-memory
      price-level maps, snapshot initialisation, delta application; class
      [MyClient]: the handling of the feed's messages),
    - [analyze_slippage.py] ([get_best_prices], [process_data], the
      mean markout and the hourly curves of [plot_results]),
    - [analyze_imbalance.py] ([process_trades], [find_linked_ticker]),
    - [imbalance_predictability.py] ([parse_snapshot],
      [calculate_metrics]),
    followed by the properties established about them. *)

From Stdlib Require Import ZArith QArith Lqa List Lia Permutation Sorted.
From stdpp Require Import gmap strings list fin_maps sorting.

Local Open Scope Z_scope.

(* ===================================================================== *)
(** ** kalshi_database.py : the order book state engine                   *)
(* ===================================================================== *)

Module Orderbook.

(** [{side: {price: size}}] for one ticker.  The Python value is a dict
    with exactly the two keys ["yes"] and ["no"], each a dict from price
    to size. *)
Record book := Book {
  yes : gmap Z Z;
  no  : gmap Z Z
}.

(** [{"yes": {}, "no": {}}] *)
Definition empty_book : book := Book ∅ ∅.

(** A snapshot as it is serialised: [{"yes": [[p, s], ...], "no": ...}].
    Either key may be missing from a feed message, which is why the code
    reads them with [.get(key, [])]. *)
Record snapshot := Snapshot {
  snap_yes : option (list (Z * Z));
  snap_no  : option (list (Z * Z))
}.

(** The fields of an [orderbook_delta] message that the engine reads.
    [ts] is the epoch second obtained from the ISO-8601 string; [None]
    stands for a missing or unparseable string, where the code falls back
    to the wall clock. *)
Record delta_msg := DeltaMsg {
  price : Z;
  delta : Z;
  side  : string;
  ts    : option Z
}.

(** One row written to the [orderbook_snapshots] table. *)
Record stored_row := StoredRow {
  row_timestamp : Z;
  row_ticker    : string;
  row_snapshot  : snapshot
}.

(** The part of an [OrderbookDatabase] object that the two operations
    touch: the in-memory state and the rows appended to the
    [orderbook_snapshots] table. *)
Record OrderbookDatabase := Database {
  orderbook_state     : gmap string book;
  orderbook_snapshots : list stored_row
}.

Definition fresh_database : OrderbookDatabase := Database ∅ [].

(** [if ticker not in self.orderbook_state:
        self.orderbook_state[ticker] = {"yes": {}, "no": {}}]
    followed by the read [self.orderbook_state[ticker]]. *)
Definition book_of (st : gmap string book) (ticker : string) : book :=
  match st !! ticker with
  | Some b => b
  | None => empty_book
  end.

(** [for price, size in levels: d[price] = size] *)
Definition store_levels (d : gmap Z Z) (levels : list (Z * Z)) : gmap Z Z :=
  foldl (fun m ps => <[ps.1 := ps.2]> m) d levels.

(** [snapshot_msg.get(key, [])] *)
Definition get_levels (o : option (list (Z * Z))) : list (Z * Z) :=
  match o with
  | Some l => l
  | None => []
  end.

(** [store_orderbook_snapshot]: one more row in the table. *)
Definition store_orderbook_snapshot
    (rows : list stored_row) (ticker : string) (timestamp : Z)
    (s : snapshot) : list stored_row :=
  rows ++ [StoredRow timestamp ticker s].

(** [initialize_orderbook_from_snapshot].  [now] is the value of
    [int(datetime.now().timestamp())] when the call is made. *)
Definition initialize_orderbook_from_snapshot
    (now : Z) (db : OrderbookDatabase) (ticker : string)
    (snapshot_msg : snapshot) : OrderbookDatabase :=
  let b := book_of (orderbook_state db) ticker in
  let y := store_levels (yes b) (get_levels (snap_yes snapshot_msg)) in
  let n := store_levels (no b) (get_levels (snap_no snapshot_msg)) in
  Database (<[ticker := Book y n]> (orderbook_state db))
           (store_orderbook_snapshot (orderbook_snapshots db) ticker now
              snapshot_msg).

(** [self.orderbook_state[ticker][side]]: the inner dict has the keys
    ["yes"] and ["no"] only; any other key raises [KeyError]. *)
Definition get_side (b : book) (s : string) : option (gmap Z Z) :=
  if decide (s = "yes"%string) then Some (yes b)
  else if decide (s = "no"%string) then Some (no b)
  else None.

Definition set_side (b : book) (s : string) (m : gmap Z Z) : book :=
  if decide (s = "yes"%string) then Book m (no b) else Book (yes b) m.

(** The body of the [if new_size <= 0: ... else: ...] statement. *)
Definition apply_delta (m : gmap Z Z) (p d : Z) : gmap Z Z :=
  let current_size := default 0 (m !! p) in
  let new_size := current_size + d in
  if decide (new_size ≤ 0) then delete p m else <[p := new_size]> m.

(** [sorted(d.items())]: the levels in ascending order of price. *)
Definition price_le (a b : Z * Z) : Prop := a.1 ≤ b.1.

Global Instance price_le_dec a b : Decision (price_le a b) :=
  decide (a.1 ≤ b.1).

Definition sorted_items (m : gmap Z Z) : list (Z * Z) :=
  merge_sort price_le (map_to_list m).

Definition snapshot_of (b : book) : snapshot :=
  Snapshot (Some (sorted_items (yes b))) (Some (sorted_items (no b))).

(** [update_orderbook_state].  [None] is the [KeyError] raised when
    [side] is not one of the two keys of the inner dict. *)
Definition update_orderbook_state
    (now : Z) (db : OrderbookDatabase) (ticker : string)
    (delta_msg : delta_msg) : option OrderbookDatabase :=
  let b := book_of (orderbook_state db) ticker in
  match get_side b (side delta_msg) with
  | None => None
  | Some m =>
      let b' := set_side b (side delta_msg)
                  (apply_delta m (price delta_msg) (delta delta_msg)) in
      let timestamp := default now (ts delta_msg) in
      Some (Database (<[ticker := b']> (orderbook_state db))
              (store_orderbook_snapshot (orderbook_snapshots db) ticker
                 timestamp (snapshot_of b')))
  end.

(** The two feed messages that reach the engine, as [on_message]
    dispatches them, each with the wall-clock reading of its call. *)
Inductive feed_msg :=
| OrderbookSnapshot (now : Z) (ticker : string) (msg : snapshot)
| OrderbookDelta (now : Z) (ticker : string) (msg : delta_msg).

Definition on_message (db : OrderbookDatabase) (m : feed_msg)
    : option OrderbookDatabase :=
  match m with
  | OrderbookSnapshot now t s =>
      Some (initialize_orderbook_from_snapshot now db t s)
  | OrderbookDelta now t d => update_orderbook_state now db t d
  end.

Fixpoint run (db : OrderbookDatabase) (ms : list feed_msg)
    : option OrderbookDatabase :=
  match ms with
  | [] => Some db
  | m :: ms' =>
      match on_message db m with
      | Some db' => run db' ms'
      | None => None
      end
  end.

(** *** Invariants *)

Definition levels_positive (m : gmap Z Z) : Prop :=
  ∀ p s, m !! p = Some s → 0 < s.

Definition book_positive (b : book) : Prop :=
  levels_positive (yes b) ∧ levels_positive (no b).

Definition list_positive (l : list (Z * Z)) : Prop :=
  Forall (fun ps => 0 < ps.2) l.

Definition snapshot_positive (s : snapshot) : Prop :=
  list_positive (get_levels (snap_yes s)) ∧
  list_positive (get_levels (snap_no s)).

(** Nothing stored in memory and nothing persisted has size [≤ 0]. *)
Definition db_positive (db : OrderbookDatabase) : Prop :=
  (∀ t b, orderbook_state db !! t = Some b → book_positive b) ∧
  Forall (fun r => snapshot_positive (row_snapshot r))
         (orderbook_snapshots db).

Definition valid_side (s : string) : Prop :=
  s = "yes"%string ∨ s = "no"%string.

(** What a message must satisfy for the invariant to survive it. *)
Definition msg_positive (m : feed_msg) : Prop :=
  match m with
  | OrderbookSnapshot _ _ s => snapshot_positive s
  | OrderbookDelta _ _ d => valid_side (side d)
  end.

(** *** A concrete run

    A first snapshot message with one YES level at 40 and one NO level at
    50, followed by a second full snapshot message, for the same ticker,
    with other prices. *)
Definition first_snapshot : snapshot :=
  Snapshot (Some [(40, 5)]) (Some [(50, 2)]).
Definition second_snapshot : snapshot :=
  Snapshot (Some [(45, 3)]) (Some [(58, 10)]).
Definition after_two_snapshots : OrderbookDatabase :=
  initialize_orderbook_from_snapshot 200
    (initialize_orderbook_from_snapshot 100 fresh_database "T" first_snapshot)
    "T" second_snapshot.

End Orderbook.

(* ===================================================================== *)
(** ** Values shared by the analysis scripts                              *)
(* ===================================================================== *)

Module Py.

(** The [snapshot_data] column after [json.loads]: an object whose
    ["yes"] and ["no"] keys, when present, hold a list of levels.  A level
    is kept as the list it is in JSON, so that [p[0]] and [p[1]] can fail
    the way they do in Python. *)
Record snapshot_data := SnapshotData {
  yes_levels : option (list (list Z));
  no_levels  : option (list (list Z))
}.

(** The text of the column; [None] is a text on which [json.loads] (or
    the first [.get]) raises. *)
Definition snapshot_json := option snapshot_data.

(** A JSON value found under ["taker_side"]. *)
Inductive json_value :=
| JString (s : string)
| JNumber (n : Z)
| JNull.

(** The [trade_data] column after [json.loads]; a field is [None] when
    the key is missing. *)
Record trade_data := TradeData {
  yes_price         : option Q;
  yes_price_dollars : option Q;
  count             : option Z;
  taker_side        : option json_value
}.

Definition trade_json := option trade_data.

(** Rows of the tables [orderbook_snapshots] and [trades], restricted to
    the columns that the scripts read. *)
Record snapshot_row := SnapshotRow {
  snap_timestamp : Z;
  snap_data      : snapshot_json
}.

Record trade_row := TradeRow {
  trade_timestamp : Z;
  trade_json_text : trade_json
}.

(** [d.get(key, [])] *)
Definition get_list {A} (o : option (list A)) : list A :=
  match o with
  | Some l => l
  | None => []
  end.

(** [p[0]] and [p[1]]; [None] is [IndexError]. *)
Definition item0 (p : list Z) : option Z := p !! 0%nat.
Definition item1 (p : list Z) : option Z := p !! 1%nat.

(** The loop of the builtin [max]: the running best is replaced only by
    a strictly greater item, so the first maximal item wins. *)
Definition max_step {A} (key : A → Z) (best x : A) : A :=
  if key best <? key x then x else best.

(** [max(l)] on integers; [None] is the [ValueError] on an empty list. *)
Definition py_max (l : list Z) : option Z :=
  match l with
  | [] => None
  | x :: l' => Some (foldl (max_step id) x l')
  end.

(** [max(l, key=lambda x: x[0])]: the key is computed for every item,
    and an [IndexError] in any of them leaves the call. *)
Definition py_max_key0 (l : list (list Z)) : option (list Z) :=
  keyed ← mapM (fun x => k ← item0 x; Some (k, x)) l;
  match keyed with
  | [] => None
  | kx :: rest => Some (foldl (max_step fst) kx rest).2
  end.

(** The prices of a list of levels, and what it is for [m] to be the
    maximum of a list of prices. *)
Definition level_prices (levels : list (list Z)) : list Z :=
  omap item0 levels.

Definition is_max (m : Z) (l : list Z) : Prop :=
  m ∈ l ∧ ∀ x, x ∈ l → x ≤ m.

(** [str.lower()].  A string is the sequence of its code points, each
    below 256 (it is not a UTF-8 encoding).  In that range the letters
    with a lower-case form are A-Z and the code points 192-222 other than
    215 (the multiplication sign), and the lower-case form is 32 higher. *)
Definition lower_char (c : Ascii.ascii) : Ascii.ascii :=
  let n := Ascii.nat_of_ascii c in
  if ((65 <=? n)%nat && (n <=? 90)%nat)%bool
  then Ascii.ascii_of_nat (n + 32)
  else if ((192 <=? n)%nat && (n <=? 222)%nat
           && negb (n =? 215)%nat)%bool
  then Ascii.ascii_of_nat (n + 32)
  else c.

Fixpoint lower (s : string) : string :=
  match s with
  | EmptyString => EmptyString
  | String c s' => String (lower_char c) (lower s')
  end.

End Py.

(* ===================================================================== *)
(** ** analyze_slippage.py                                                *)
(* ===================================================================== *)

Module Slippage.
Import Py.

(** [get_best_prices]; [None] is the [(None, None)] of the [except]
    branch. *)
Definition get_best_prices (snapshot_json : snapshot_json)
    : option (Z * Z) :=
  data ← snapshot_json;
  let yes_bids := get_list (yes_levels data) in
  let no_bids := get_list (no_levels data) in
  best_bid ←
    match yes_bids with
    | [] => Some 0
    | _ => prices ← mapM item0 yes_bids; py_max prices
    end;
  best_ask ←
    match no_bids with
    | [] => Some 100
    | _ => prices ← mapM item0 no_bids;
           best_no_bid ← py_max prices;
           Some (100 - best_no_bid)
    end;
  Some (best_bid, best_ask).

(** [(best_bid + best_ask) / 2] on one row: true division, and no value
    when the two columns hold [None]. *)
Definition mid_price_of (best : option (Z * Z)) : option Q :=
  ba ← best; Some (inject_Z (ba.1 + ba.2) / 2)%Q.

(** [get_trade_details], the one nested in [process_data]. *)
Definition get_trade_details (trade_json : trade_json)
    : option Q * option Z :=
  match trade_json with
  | None => (None, None)
  | Some data =>
      let price :=
        match yes_price data with
        | Some p => Some p
        | None => yes_price_dollars data
        end in
      (price, Some (default 0 (count data)))
  end.

(** A trade that survived [dropna(subset=['exec_price'])]. *)
Record trade := Trade {
  timestamp  : Z;
  exec_price : Q;
  trade_count : Z
}.

Definition parse_trade (r : trade_row) : option trade :=
  let pc := get_trade_details (trade_json_text r) in
  price ← pc.1;
  Some (Trade (trade_timestamp r) price (default 0 pc.2)).

(** [snapshots_df[['timestamp', 'mid_price']]] after
    [dropna(subset=['mid_price'])]: pairs of a timestamp and a mid
    price. *)
Definition parse_snapshot_row (r : snapshot_row) : option (Z * Q) :=
  mid ← mid_price_of (get_best_prices (snap_data r));
  Some (snap_timestamp r, mid).

(** [sort_values('timestamp')]: the rows in ascending order of
    timestamp.  (Which of two rows with the same timestamp comes first is
    left open by pandas' default sort; nothing below depends on it.) *)
Definition trade_le (a b : trade) : Prop := timestamp a ≤ timestamp b.
Definition snap_le (a b : Z * Q) : Prop := a.1 ≤ b.1.

Global Instance trade_le_dec a b : Decision (trade_le a b) :=
  decide (timestamp a ≤ timestamp b).
Global Instance snap_le_dec a b : Decision (snap_le a b) :=
  decide (a.1 ≤ b.1).

Definition sort_trades (l : list trade) : list trade :=
  merge_sort trade_le l.
Definition sort_snapshots (l : list (Z * Q)) : list (Z * Q) :=
  merge_sort snap_le l.

(** [pd.merge_asof(..., direction='backward')] selects, for each left
    row, the last right row whose key is less than or equal to the left
    key, and no row when there is none; both frames have to be sorted by
    the key.  pandas computes it with two cursors that only move
    forward.  [advance] is the inner [while] loop: the right cursor passes
    every row whose key is [≤] the left key, and [last] is the row just
    behind the cursor. *)
Fixpoint advance (t : Z) (last : option (Z * Q)) (right : list (Z * Q))
    : option (Z * Q) * list (Z * Q) :=
  match right with
  | [] => (last, [])
  | r :: right' =>
      if r.1 <=? t then advance t (Some r) right' else (last, right)
  end.

(** The outer loop over the left keys; the result holds, for each left
    row, the right row that was selected, if any. *)
Fixpoint asof_join_backward (left : list Z) (last : option (Z * Q))
    (right : list (Z * Q)) : list (option (Z * Q)) :=
  match left with
  | [] => []
  | t :: left' =>
      let lr := advance t last right in
      lr.1 :: asof_join_backward left' lr.1 lr.2
  end.

Definition merge_asof (left : list Z) (right : list (Z * Q))
    : list (option (Z * Q)) :=
  asof_join_backward left None right.

(** [intervals = [1, 10, 30, 60, 300]] *)
Definition intervals : list Z := [1; 10; 30; 60; 300].

(** [np.select([exec > mid, exec < mid], [1, -1], default=0)]; every
    comparison with a missing mid is false. *)
Definition side_of (exec : Q) (mid : option Q) : Z :=
  match mid with
  | None => 0
  | Some m =>
      match (exec ?= m)%Q with
      | Gt => 1
      | Lt => -1
      | Eq => 0
      end
  end.

(** [(exec_price - mid_price) * side] *)
Definition slippage_of (exec : Q) (mid : option Q) (side : Z) : option Q :=
  m ← mid; Some ((exec - m) * inject_Z side)%Q.

(** [slippage * count] *)
Definition slippage_paid_of (slippage : option Q) (count : Z) : option Q :=
  s ← slippage; Some (s * inject_Z count)%Q.

(** [np.where(side == 1, future - exec,
             np.where(side == -1, exec - future, 0))] *)
Definition markout_of (side : Z) (exec : Q) (future_mid : option Q)
    : option Q :=
  if side =? 1 then f ← future_mid; Some (f - exec)%Q
  else if side =? -1 then f ← future_mid; Some (exec - f)%Q
  else Some 0%Q.

(** One row of the frame that [process_data] returns.  The columns
    [mid_price_{i}s] and [markout_{i}s] are kept under their interval. *)
Record merged_row := MergedRow {
  m_timestamp     : Z;
  m_exec_price    : Q;
  m_count         : Z;
  m_mid_price     : option Q;
  m_side          : Z;
  m_slippage      : option Q;
  m_slippage_paid : option Q;
  m_future_mid    : list (Z * option Q);
  m_markout       : list (Z * option Q)
}.

(** The snapshot selected for each trade, at the trade time. *)
Definition trade_matches (trades : list trade) (snaps : list (Z * Q))
    : list (option (Z * Q)) :=
  merge_asof (timestamp <$> trades) snaps.

(** The snapshot selected for each trade at [timestamp + interval]. *)
Definition horizon_matches (interval : Z) (trades : list trade)
    (snaps : list (Z * Q)) : list (option (Z * Q)) :=
  merge_asof ((fun t => timestamp t + interval) <$> trades) snaps.

(** The [i]-th row of each per-interval join, keyed by interval. *)
Definition future_mids_at (i : nat) (trades : list trade)
    (snaps : list (Z * Q)) : list (Z * option Q) :=
  (fun interval =>
     (interval, snd <$> mjoin (horizon_matches interval trades snaps !! i)))
    <$> intervals.

Definition build_row (tm : trade * option (Z * Q))
    (future : list (Z * option Q)) : merged_row :=
  let t := tm.1 in
  let mid := snd <$> tm.2 in
  let side := side_of (exec_price t) mid in
  let slippage := slippage_of (exec_price t) mid side in
  MergedRow (timestamp t) (exec_price t) (trade_count t) mid side slippage
    (slippage_paid_of slippage (trade_count t))
    future
    ((fun hf => (hf.1, markout_of side (exec_price t) hf.2)) <$> future).

(** The snapshots with a mid price, and the trades with an execution
    price, each sorted by timestamp. *)
Definition valid_snapshots (snapshots_df : list snapshot_row)
    : list (Z * Q) :=
  sort_snapshots (omap parse_snapshot_row snapshots_df).

Definition valid_trades (trades_df : list trade_row) : list trade :=
  sort_trades (omap parse_trade trades_df).

(** [process_data].  The script calls it for a ticker only when both
    frames have rows. *)
Definition process_data (trades_df : list trade_row)
    (snapshots_df : list snapshot_row) : list merged_row :=
  let snaps := valid_snapshots snapshots_df in
  let trades := valid_trades trades_df in
  imap (fun i tm => build_row tm (future_mids_at i trades snaps))
       (zip trades (trade_matches trades snaps)).

(** *** The join as a specification

    The snapshot with the greatest timestamp [≤ t] in a sequence sorted
    by timestamp: the last row among those not after [t]. *)
Definition asof (t : Z) (snaps : list (Z * Q)) : option (Z * Q) :=
  last (filter (fun r => r.1 ≤ t) snaps).

(** What it is for a selection [m] to be a backward as-of match of the
    time [t] in [snaps]: a row not after [t] that no row not after [t] is
    later than, or nothing when every row is after [t].  (Of several rows
    with that same latest timestamp, any one is a match.) *)
Definition latest_not_after (snaps : list (Z * Q)) (t : Z)
    (m : option (Z * Q)) : Prop :=
  match m with
  | Some s => s ∈ snaps ∧ s.1 ≤ t ∧ ∀ s', s' ∈ snaps → s'.1 ≤ t → s'.1 ≤ s.1
  | None => ∀ s', s' ∈ snaps → t < s'.1
  end.

(** No selected snapshot is later than the time it was selected for. *)
Definition never_ahead (queries : list Z)
    (selected : list (option (Z * Q))) : Prop :=
  Forall2 (fun t m => ∀ s, m = Some s → s.1 ≤ t) queries selected.

(** The row that a trade yields, written with [asof]. *)
Definition row_of (snaps : list (Z * Q)) (t : trade) : merged_row :=
  build_row (t, asof (timestamp t) snaps)
    ((fun interval =>
        (interval, snd <$> asof (timestamp t + interval) snaps))
       <$> intervals).

(** *** A concrete input

    One snapshot at second 10 with YES=[[40,5],[45,3]] and
    NO=[[50,2],[58,10]], a trade of 3 contracts at price 50 at second 5,
    before the snapshot, and a trade of 2 contracts at price 50 at second
    12, after it. *)
Definition example_snapshot : snapshot_data :=
  SnapshotData (Some [[40; 5]; [45; 3]]) (Some [[50; 2]; [58; 10]]).
Definition example_snapshots : list snapshot_row :=
  [SnapshotRow 10 (Some example_snapshot)].
Definition early_trade : trade_row :=
  TradeRow 5
    (Some (TradeData (Some 50%Q) None (Some 3) (Some (JString "yes")))).
Definition late_trade : trade_row :=
  TradeRow 12
    (Some (TradeData (Some 50%Q) None (Some 2) (Some (JString "yes")))).

(** Snapshots with the mid prices 49, 53, 51 and 53 at the seconds 0, 5,
    100 and 105, and two trades at price 50: one at second 0, above the
    mid price, and one at second 100, below it. *)
Definition markout_snapshots : list snapshot_row :=
  [SnapshotRow 0 (Some (SnapshotData (Some [[48; 1]]) (Some [[50; 1]])));
   SnapshotRow 5 (Some (SnapshotData (Some [[52; 1]]) (Some [[46; 1]])));
   SnapshotRow 100 (Some (SnapshotData (Some [[50; 1]]) (Some [[48; 1]])));
   SnapshotRow 105 (Some (SnapshotData (Some [[52; 1]]) (Some [[46; 1]])))].
Definition markout_trades : list trade_row :=
  [TradeRow 0
     (Some (TradeData (Some 50%Q) None (Some 1) (Some (JString "yes"))));
   TradeRow 100
     (Some (TradeData (Some 50%Q) None (Some 1) (Some (JString "yes"))))].

End Slippage.

(* ===================================================================== *)
(** ** analyze_imbalance.py                                               *)
(* ===================================================================== *)

Module Imbalance.
Import Py.

(** [get_trade_details], the one nested in [process_trades]: the count
    (0 when missing) and the lower-cased taker side (empty when missing);
    [(0, '')] when anything raises, as [.lower()] does on a value that is
    not a string. *)
Definition get_trade_details (trade_json : trade_json) : Z * string :=
  match trade_json with
  | None => (0, EmptyString)
  | Some data =>
      let count := default 0 (count data) in
      match taker_side data with
      | None => (count, lower EmptyString)
      | Some (JString s) => (count, lower s)
      | Some _ => (0, EmptyString)
      end
  end.

(** The dtype of the [count] column.  [get_trade_details] returns Python
    integers, and pandas stores the column that [apply] builds from them
    as int64 when every value of the frame fits, as uint64 when that fails
    and every value is non-negative and fits, and as a column of the
    Python integers themselves (dtype object) otherwise. *)
Inductive dtype := int64 | uint64 | object.

Definition fits_int64 (c : Z) : bool := (- 2 ^ 63 <=? c) && (c <? 2 ^ 63).
Definition fits_uint64 (c : Z) : bool := (0 <=? c) && (c <? 2 ^ 64).

Definition infer_dtype (values : list Z) : dtype :=
  if forallb fits_int64 values then int64
  else if forallb fits_uint64 values then uint64
  else object.

(** Unary minus on a column: the two fixed-width dtypes wrap around
    modulo 2^64, Python integers do not. *)
Definition negative (d : dtype) (x : Z) : Z :=
  match d with
  | int64 => (- x + 2 ^ 63) `mod` 2 ^ 64 - 2 ^ 63
  | uint64 => (- x) `mod` 2 ^ 64
  | object => - x
  end.

(** [np.where(side == 'yes', count, np.where(side == 'no', -count, 0))];
    the result has the dtype of the [count] column. *)
Definition signed_volume_of (d : dtype) (taker_side : string) (count : Z)
    : Z :=
  if decide (taker_side = "yes"%string) then count
  else if decide (taker_side = "no"%string) then negative d count
  else 0.

(** A row of the frame that [process_trades] returns. *)
Record processed_row := ProcessedRow {
  p_timestamp     : Z;
  p_count         : Z;
  p_taker_side    : string;
  p_signed_volume : Z
}.

(** The [count] column of the frame. *)
Definition count_column (trades_df : list trade_row) : list Z :=
  (fun r => (get_trade_details (trade_json_text r)).1) <$> trades_df.

(** What [process_trades] does to one row of a frame whose [count]
    column has dtype [d]. *)
Definition process_trade (d : dtype) (is_inverse : bool) (r : trade_row)
    : processed_row :=
  let cs := get_trade_details (trade_json_text r) in
  let signed_volume := signed_volume_of d cs.2 cs.1 in
  ProcessedRow (trade_timestamp r) cs.1 cs.2
    (if is_inverse then negative d signed_volume else signed_volume).

(** [process_trades]; an empty frame gives an empty frame. *)
Definition process_trades (trades_df : list trade_row) (is_inverse : bool)
    : list processed_row :=
  let d := infer_dtype (count_column trades_df) in
  process_trade d is_inverse <$> trades_df.

(** The [signed_volume] column of the result. *)
Definition signed_volumes (trades_df : list trade_row) (is_inverse : bool)
    : list Z :=
  p_signed_volume <$> process_trades trades_df is_inverse.

(** A frame of one trade with the count and the taker side given. *)
Definition one_trade (count : Z) (taker_side : string) : list trade_row :=
  [TradeRow 0
     (Some (TradeData None None (Some count) (Some (JString taker_side))))].

End Imbalance.

(* ===================================================================== *)
(** ** imbalance_predictability.py                                        *)
(* ===================================================================== *)

Module Predictability.
Import Py.

(** The four floats of the returned [pd.Series]; [None] is [np.nan]. *)
Record l1 := L1 {
  best_bid_price : option Z;
  best_bid_size  : option Z;
  best_ask_price : option Z;
  best_ask_size  : option Z
}.

(** The body of the [try] block; [None] is a raised exception. *)
Definition parse_snapshot_try (snapshot_json : snapshot_json) : option l1 :=
  data ← snapshot_json;
  let yes_levels := get_list (yes_levels data) in
  let no_levels := get_list (no_levels data) in
  bid ←
    match yes_levels with
    | [] => Some (None, None)
    | _ => best_yes ← py_max_key0 yes_levels;
           best_bid_price ← item0 best_yes;
           best_bid_size ← item1 best_yes;
           Some (Some best_bid_price, Some best_bid_size)
    end;
  ask ←
    match no_levels with
    | [] => Some (None, None)
    | _ => best_no ← py_max_key0 no_levels;
           best_no_price ← item0 best_no;
           best_no_size ← item1 best_no;
           Some (Some (100 - best_no_price), Some best_no_size)
    end;
  Some (L1 bid.1 bid.2 ask.1 ask.2).

(** [parse_snapshot], applied to the [snapshot_data] column of a row. *)
Definition parse_snapshot (snapshot_json : snapshot_json) : l1 :=
  match parse_snapshot_try snapshot_json with
  | Some r => r
  | None => L1 None None None None
  end.

End Predictability.

(* ===================================================================== *)
(** ** kalshi_database.py : vocabulary for the persisted snapshots        *)
(* ===================================================================== *)

Module OrderbookLog.

(** Levels in strictly ascending order of price. *)
Definition ascending (l : list (Z * Z)) : Prop :=
  StronglySorted (fun a b => a.1 < b.1) l.

End OrderbookLog.

(* ===================================================================== *)
(** ** kalshi_database.py : the websocket client                          *)
(* ===================================================================== *)

Module Collector.
Import Orderbook.

(** A message of the feed, by the value of its ["type"] field, with the
    fields of its ["msg"] object that [on_message] reads.  [ticker] is
    [msg_data.get("market_ticker")]; [Unknown] stands for any other type
    (or none). *)
Inductive message :=
| Lifecycle (ticker : option string) (status : option string)
| Trade (ticker : option string) (ts : option Z) (data : Py.trade_data)
| OrderbookSnapshot (ticker : option string) (msg : snapshot)
| OrderbookDelta (ticker : option string) (msg : delta_msg)
| Confirmation (ticker : option string)
| Unknown (ticker : option string).

Definition market_ticker (m : message) : option string :=
  match m with
  | Lifecycle t _ | Trade t _ _ | OrderbookSnapshot t _ | OrderbookDelta t _
  | Confirmation t | Unknown t => t
  end.

(** What the surroundings decide during one call: the clock reading and
    whether [ws.send] accepts a message or raises. *)
Record env := Env {
  now     : Z;
  send_ok : bool
}.

(** One row of the [trades] table. *)
Record trade_record := TradeRecord {
  tr_timestamp : Z;
  tr_ticker    : string;
  tr_data      : Py.trade_data
}.

(** The message that [unsubscribe] hands to [ws.send]. *)
Record unsubscribe_message := UnsubscribeMessage {
  um_id             : Z;
  um_channels       : list string;
  um_market_tickers : option (list string)
}.

(** A [MyClient] object together with the tables of its database and
    the record of what it did on the socket. *)
Record client := Client {
  db                 : OrderbookDatabase;
  trades             : list trade_record;
  trade_count        : Z;
  snapshot_count     : Z;
  delta_count        : Z;
  other_count        : Z;
  market_tickers     : list string;
  determined_markets : gset string;
  active_markets     : gset string;
  message_id         : Z;
  sent               : list unsubscribe_message;
  closed             : bool
}.

(** [MyClient.__init__], on a database that may hold rows already;
    [first_id] is the message id that the base class starts with. *)
Definition new_client (db : OrderbookDatabase) (trades : list trade_record)
    (market_tickers : list string) (first_id : Z) : client :=
  Client db trades 0 0 0 0 market_tickers ∅ (list_to_set market_tickers)
    first_id [] false.

(** Python truth of a string that may be missing, and of an integer
    that may be missing: [None], [''] and [0] are false. *)
Definition truthy_string (o : option string) : option string :=
  match o with
  | Some s => if decide (s = EmptyString) then None else Some s
  | None => None
  end.

Definition truthy_int (o : option Z) : option Z :=
  match o with
  | Some z => if decide (z = 0) then None else Some z
  | None => None
  end.

(** [unsubscribe]; [None] is the exception of [ws.send], raised before
    the message id is incremented. *)
Definition unsubscribe (e : env) (c : client) (channels tickers : list string)
    : option client :=
  let unsubscribe_message :=
    UnsubscribeMessage (message_id c) channels
      (match tickers with [] => None | _ => Some tickers end) in
  if send_ok e then
    Some (Client (db c) (trades c) (trade_count c) (snapshot_count c)
            (delta_count c) (other_count c) (market_tickers c)
            (determined_markets c) (active_markets c)
            (message_id c + 1) (sent c ++ [unsubscribe_message]) (closed c))
  else None.

(** The block under [if status in ["closed", "settled"] and ticker not in
    self.determined_markets]; the boolean tells whether it ended in
    [return]. *)
Definition determine (e : env) (c : client) (ticker : string)
    : client * bool :=
  let c1 :=
    Client (db c) (trades c) (trade_count c) (snapshot_count c)
      (delta_count c) (other_count c) (market_tickers c)
      ({[ticker]} ∪ determined_markets c) (active_markets c ∖ {[ticker]})
      (message_id c) (sent c) (closed c) in
  let c2 :=
    match unsubscribe e c1
            ["trade"; "orderbook_delta"; "market_lifecycle_v2"]%string
            [ticker] with
    | Some c' => c'
    | None => c1
    end in
  if decide (size (active_markets c2) = 0%nat) then
    (Client (db c2) (trades c2) (trade_count c2) (snapshot_count c2)
       (delta_count c2) (other_count c2) (market_tickers c2)
       (determined_markets c2) (active_markets c2)
       (message_id c2) (sent c2) true, true)
  else (c2, false).

(** The first part of [on_message], for a lifecycle message. *)
Definition on_lifecycle (e : env) (c : client)
    (ticker status : option string) : client * bool :=
  match truthy_string ticker, truthy_string status with
  | Some t, Some s =>
      if decide (s ∈ ["closed"; "settled"]%string ∧
                 t ∉ determined_markets c)
      then determine e c t
      else (c, false)
  | _, _ => (c, false)
  end.

(** [store_trade] and the counter. *)
Definition record_trade (c : client) (ticker : string) (timestamp : Z)
    (data : Py.trade_data) : client :=
  Client (db c) (trades c ++ [TradeRecord timestamp ticker data])
    (trade_count c + 1) (snapshot_count c) (delta_count c) (other_count c)
    (market_tickers c) (determined_markets c) (active_markets c)
    (message_id c) (sent c) (closed c).

Definition with_db (c : client) (db' : OrderbookDatabase)
    (snapshots deltas others : Z) : client :=
  Client db' (trades c) (trade_count c) (snapshot_count c + snapshots)
    (delta_count c + deltas) (other_count c + others)
    (market_tickers c) (determined_markets c) (active_markets c)
    (message_id c) (sent c) (closed c).

(** The dispatch on the message type, after the two early returns. *)
Definition dispatch (e : env) (c : client) (m : message) : option client :=
  let ticker := truthy_string (market_ticker m) in
  match m with
  | Trade _ ts data =>
      match ticker, truthy_int ts with
      | Some t, Some timestamp => Some (record_trade c t timestamp data)
      | _, _ => Some c
      end
  | OrderbookSnapshot _ msg =>
      match ticker with
      | Some t =>
          Some (with_db c
                  (initialize_orderbook_from_snapshot (now e) (db c) t msg)
                  1 0 0)
      | None => Some c
      end
  | OrderbookDelta _ msg =>
      match ticker with
      | Some t =>
          db' ← update_orderbook_state (now e) (db c) t msg;
          Some (with_db c db' 0 1 0)
      | None => Some c
      end
  | Confirmation _ => Some c
  | Lifecycle _ _ | Unknown _ => Some (with_db c (db c) 0 0 1)
  end.

(** [on_message]; [None] is an exception that leaves the method (the
    [KeyError] of [update_orderbook_state]). *)
Definition on_message (e : env) (c : client) (m : message) : option client :=
  let cr :=
    match m with
    | Lifecycle ticker status => on_lifecycle e c ticker status
    | _ => (c, false)
    end in
  if cr.2 then Some cr.1
  else
    match truthy_string (market_ticker m) with
    | Some t =>
        if decide (t ∈ determined_markets cr.1) then Some cr.1
        else dispatch e cr.1 m
    | None => dispatch e cr.1 m
    end.

(** The messages of a connection, one after the other. *)
Fixpoint run (c : client) (ms : list (env * message)) : option client :=
  match ms with
  | [] => Some c
  | em :: ms' =>
      match on_message em.1 c em.2 with
      | Some c' => run c' ms'
      | None => None
      end
  end.

(** The rows of the two tables that belong to a ticker. *)
Definition snapshots_of (t : string) (c : client) : list stored_row :=
  filter (fun r => row_ticker r = t) (orderbook_snapshots (db c)).

Definition trades_of (t : string) (c : client) : list trade_record :=
  filter (fun r => tr_ticker r = t) (trades c).

(** The tickers named by the unsubscribe messages sent so far. *)
Definition unsubscribed (c : client) : list string :=
  mjoin ((fun m => default [] (um_market_tickers m)) <$> sent c).

End Collector.

(* ===================================================================== *)
(** ** analyze_slippage.py : the aggregates of [plot_results]             *)
(* ===================================================================== *)

Module SlippageReport.
Import Py Slippage.

(** The column [markout_{h}s] of a row; [None] is NaN (also used when the
    column is missing, which is not the case in the rows of
    [process_data]). *)
Fixpoint column (h : Z) (cols : list (Z * option Q)) : option Q :=
  match cols with
  | [] => None
  | (k, v) :: cols' => if decide (k = h) then v else column h cols'
  end.

Definition markout_column (h : Z) (r : merged_row) : option Q :=
  column h (m_markout r).

(** The values of a column that are not NaN, and their sum. *)
Definition present (l : list (option Q)) : list Q := omap id l.

Definition Qsum (l : list Q) : Q := foldr Qplus 0%Q l.

(** [Series.mean()]: NaN is skipped, and the mean of nothing is NaN. *)
Definition mean (l : list (option Q)) : option Q :=
  match present l with
  | [] => None
  | vs => Some (Qsum vs / inject_Z (Z.of_nat (length vs)))%Q
  end.

(** The body of the loop over [intervals] of the first chart: the mean
    markout by trade, [df[col].mean()]. *)
Definition mean_markout (rows : list merged_row) (h : Z) : option Q :=
  mean (markout_column h <$> rows).

(** [pd.to_datetime(ts, unit='s').floor('h')], as epoch seconds. *)
Definition hour_bucket (ts : Z) : Z := ts - ts `mod` 3600.

Definition hour_group (rows : list merged_row) (hour : Z)
    : list merged_row :=
  filter (fun r => hour_bucket (m_timestamp r) = hour) rows.

(** [sorted(df['hour_bucket'].unique())] *)
Definition unique_hours (rows : list merged_row) : list Z :=
  merge_sort Z.le (remove_dups ((hour_bucket ∘ m_timestamp) <$> rows)).

(** The curves of the two hourly plots: one per hour, in ascending
    order, except for the hours with fewer than 5 trades. *)
Definition hourly_curves (curve : list merged_row → list (option Q))
    (rows : list merged_row) : list (Z * list (option Q)) :=
  omap (fun hour =>
          let group_df := hour_group rows hour in
          if (length group_df <? 5)%nat then None
          else Some (hour, curve group_df))
       (unique_hours rows).

End SlippageReport.

(* ===================================================================== *)
(** ** From the stored rows to the frames of the analysis scripts         *)
(* ===================================================================== *)

Module Stored.
Import Orderbook.

(** [json.loads(json.dumps(snapshot))]: a level [(price, size)] is
    written, and read back, as the list [[price, size]]. *)
Definition level_json (ps : Z * Z) : list Z := [ps.1; ps.2].

Definition levels_json (o : option (list (Z * Z)))
    : option (list (list Z)) :=
  match o with
  | Some l => Some (level_json <$> l)
  | None => None
  end.

Definition snapshot_json_of (s : snapshot) : Py.snapshot_json :=
  Some (Py.SnapshotData (levels_json (snap_yes s))
                        (levels_json (snap_no s))).


End Stored.

(* ===================================================================== *)
(** ** imbalance_predictability.py : [calculate_metrics]                  *)
(* ===================================================================== *)

Module Metrics.
Import Py Predictability.

(** A float64 that came out of a division: a number, an infinity, or
    NaN. *)
Inductive float :=
| Finite (q : Q)
| Inf (positive : bool)
| NaN.

(** Division of two float columns holding integers: dividing by zero
    does not raise, it gives an infinity, or NaN for 0/0. *)
Definition fdiv (n d : Z) : float :=
  if decide (d = 0) then
    if decide (n = 0) then NaN else Inf (bool_decide (0 < n))
  else Finite (inject_Z n / inject_Z d)%Q.

(** [(bid_size - ask_size) / (bid_size + ask_size)]; a NaN size gives
    NaN. *)
Definition imbalance_of (bid_size ask_size : option Z) : float :=
  match bid_size, ask_size with
  | Some b, Some a => fdiv (b - a) (b + a)
  | _, _ => NaN
  end.

(** One row of the frame that [calculate_metrics] returns. *)
Record metrics_row := MetricsRow {
  timestamp : Z;
  bid_price : Z;
  bid_size  : option Z;
  ask_price : Z;
  ask_size  : option Z;
  mid_price : Q;
  imbalance : float
}.

(** What [calculate_metrics] makes of one row: nothing when the bid
    price or the ask price is NaN ([dropna]). *)
Definition metrics_of (row : snapshot_row) : option metrics_row :=
  let l := parse_snapshot (snap_data row) in
  bid ← best_bid_price l;
  ask ← best_ask_price l;
  Some (MetricsRow (snap_timestamp row) bid (best_bid_size l) ask
          (best_ask_size l) (inject_Z (bid + ask) / 2)%Q
          (imbalance_of (best_bid_size l) (best_ask_size l))).

(** [calculate_metrics] *)
Definition calculate_metrics (df : list snapshot_row) : list metrics_row :=
  omap metrics_of df.

End Metrics.

(* ===================================================================== *)
(** ** analyze_imbalance.py : the linked market                            *)
(* ===================================================================== *)

Module ImbalanceReport.
Import Py.

(** [base_ticker.rsplit('-', 1)]: the text before the last hyphen and the
    text after it; [None] when there is no hyphen
    (['-' not in base_ticker]). *)
Fixpoint rsplit_hyphen (s : string) : option (string * string) :=
  match s with
  | EmptyString => None
  | String c s' =>
      match rsplit_hyphen s' with
      | Some (a, b) => Some (String c a, b)
      | None =>
          if decide (c = Ascii.ascii_of_nat 45)
          then Some (EmptyString, s') else None
      end
  end.

(** [find_linked_ticker].  [query pattern] is the list of rows that
    [SELECT DISTINCT ticker FROM trades WHERE ticker LIKE pattern]
    returns, in the order the database returns them. *)
Definition find_linked_ticker (query : string → list string)
    (base_ticker : string) : option string :=
  match rsplit_hyphen base_ticker with
  | None => None
  | Some (event_prefix, _) =>
      let tickers := query (event_prefix +:+ "%") in
      let linked_tickers :=
        filter (fun t => t ≠ base_ticker) tickers in
      head linked_tickers
  end.

End ImbalanceReport.

(* ===================================================================== *)
(** * Properties of the order book state engine                           *)
(* ===================================================================== *)

Module OrderbookProofs.
Import Orderbook.

(** *** Storing the levels of a snapshot message *)

Lemma store_levels_snoc (d : gmap Z Z) (l : list (Z * Z)) (ps : Z * Z) :
  store_levels d (l ++ [ps]) = <[ps.1 := ps.2]> (store_levels d l).
Proof. unfold store_levels. by rewrite foldl_app. Qed.

(** A price that the message does not mention keeps whatever the map
    held before the call. *)
Lemma store_levels_untouched (l : list (Z * Z)) (d : gmap Z Z) (p : Z) :
  p ∉ l.*1 → store_levels d l !! p = d !! p.
Proof.
  revert d. induction l as [|[q s] l IH]; intros d Hp; [done|].
  cbn in *. apply not_elem_of_cons in Hp as [Hne Hp].
  unfold store_levels in *. cbn. rewrite IH by done.
  by rewrite lookup_insert_ne.
Qed.

(** A price that the message mentions holds a size of the message. *)
Lemma store_levels_mentioned (l : list (Z * Z)) (d : gmap Z Z) (p s : Z) :
  p ∈ l.*1 → store_levels d l !! p = Some s → (p, s) ∈ l.
Proof.
  induction l as [|[q r] l IH] using rev_ind; intros Hp Hs.
  - by apply elem_of_nil in Hp.
  - rewrite store_levels_snoc in Hs. cbn in Hs.
    rewrite fmap_app in Hp. apply elem_of_app in Hp.
    destruct (decide (q = p)) as [->|Hne].
    + rewrite lookup_insert_eq in Hs. injection Hs as ->.
      apply elem_of_app. right. by apply list_elem_of_singleton.
    + rewrite lookup_insert_ne in Hs by done.
      apply elem_of_app. left. apply IH; [|done].
      destruct Hp as [Hp|Hp]; [done|].
      cbn in Hp. apply list_elem_of_singleton in Hp. congruence.
Qed.

Lemma store_levels_positive (l : list (Z * Z)) (d : gmap Z Z) :
  levels_positive d → list_positive l → levels_positive (store_levels d l).
Proof.
  revert d. induction l as [|[q r] l IH]; intros d Hd Hl; [done|].
  apply Forall_cons in Hl as [Hr Hl]. cbn in Hr.
  unfold store_levels in *. cbn. apply IH; [|done].
  intros p s. destruct (decide (q = p)) as [->|Hne].
  - rewrite lookup_insert_eq. intros [= <-]. done.
  - rewrite lookup_insert_ne by done. apply Hd.
Qed.

(** *** Applying a delta to one side *)

Lemma apply_delta_lookup (m : gmap Z Z) (p d q : Z) :
  apply_delta m p d !! q =
    if decide (q = p)
    then (if decide (default 0 (m !! p) + d ≤ 0) then None
          else Some (default 0 (m !! p) + d))
    else m !! q.
Proof.
  unfold apply_delta.
  destruct (decide (q = p)) as [->|Hne];
    destruct (decide (default 0 (m !! p) + d ≤ 0)).
  - apply lookup_delete_eq.
  - apply lookup_insert_eq.
  - by apply lookup_delete_ne.
  - by apply lookup_insert_ne.
Qed.

Lemma apply_delta_positive (m : gmap Z Z) (p d : Z) :
  levels_positive m → levels_positive (apply_delta m p d).
Proof.
  intros Hm q s. rewrite apply_delta_lookup.
  destruct (decide (q = p)); [|apply Hm].
  destruct (decide (default 0 (m !! p) + d ≤ 0)); [done|].
  intros [= <-]. lia.
Qed.

Lemma sorted_items_positive (m : gmap Z Z) :
  levels_positive m → list_positive (sorted_items m).
Proof.
  intros Hm. unfold list_positive, sorted_items.
  rewrite merge_sort_Permutation.
  apply Forall_forall. intros [p s] Hin. cbn.
  apply (Hm p). by apply elem_of_map_to_list.
Qed.

Lemma get_side_valid (b : book) (s : string) :
  valid_side s → ∃ m, get_side b s = Some m.
Proof.
  intros [->| ->]; unfold get_side.
  - by exists (yes b).
  - by exists (no b).
Qed.

Lemma get_set_side (b : book) (s : string) (m0 m : gmap Z Z) :
  get_side b s = Some m0 → get_side (set_side b s m) s = Some m.
Proof.
  unfold get_side, set_side.
  destruct (decide (s = "yes"%string)); [done|].
  destruct (decide (s = "no"%string)); done.
Qed.

Lemma set_side_positive (b : book) (s : string) (m : gmap Z Z) :
  book_positive b → levels_positive m → book_positive (set_side b s m).
Proof.
  intros [Hy Hn] Hm. unfold set_side.
  destruct (decide (s = "yes"%string)); split; done.
Qed.

Lemma get_side_positive (b : book) (s : string) (m : gmap Z Z) :
  book_positive b → get_side b s = Some m → levels_positive m.
Proof.
  intros [Hy Hn]. unfold get_side.
  destruct (decide (s = "yes"%string)); [by intros [= <-]|].
  destruct (decide (s = "no"%string)); [by intros [= <-]|done].
Qed.

Lemma empty_book_positive : book_positive empty_book.
Proof. split; intros p s; cbn; by rewrite lookup_empty. Qed.

Lemma book_of_positive (db : OrderbookDatabase) (t : string) :
  db_positive db → book_positive (book_of (orderbook_state db) t).
Proof.
  intros [Hst _]. unfold book_of.
  destruct (orderbook_state db !! t) as [b|] eqn:E.
  - by apply (Hst t).
  - apply empty_book_positive.
Qed.

Lemma snapshot_of_positive (b : book) :
  book_positive b → snapshot_positive (snapshot_of b).
Proof.
  intros [Hy Hn]. split; cbn; by apply sorted_items_positive.
Qed.

Lemma insert_book_positive (db : OrderbookDatabase) (t : string) (b : book)
    (rows : list stored_row) :
  db_positive db → book_positive b →
  Forall (fun r => snapshot_positive (row_snapshot r)) rows →
  db_positive (Database (<[t := b]> (orderbook_state db)) rows).
Proof.
  intros [Hst _] Hb Hrows. split; [|done]. cbn.
  intros t' b'. destruct (decide (t = t')) as [->|Hne].
  - rewrite lookup_insert_eq. by intros [= <-].
  - rewrite lookup_insert_ne by done. apply Hst.
Qed.

Lemma store_row_positive (rows : list stored_row) (t : string) (ts0 : Z)
    (s : snapshot) :
  Forall (fun r => snapshot_positive (row_snapshot r)) rows →
  snapshot_positive s →
  Forall (fun r => snapshot_positive (row_snapshot r))
         (store_orderbook_snapshot rows t ts0 s).
Proof.
  intros Hrows Hs. unfold store_orderbook_snapshot.
  apply Forall_app. split; [done|]. by apply Forall_singleton.
Qed.

Lemma initialize_positive (now : Z) (db : OrderbookDatabase) (t : string)
    (s : snapshot) :
  db_positive db → snapshot_positive s →
  db_positive (initialize_orderbook_from_snapshot now db t s).
Proof.
  intros Hdb [Hy Hn]. unfold initialize_orderbook_from_snapshot.
  destruct (book_of_positive db t Hdb) as [Hby Hbn].
  apply insert_book_positive; [done| |].
  - split; cbn; by apply store_levels_positive.
  - apply store_row_positive; [apply Hdb|by split].
Qed.

Lemma update_positive (now : Z) (db : OrderbookDatabase) (t : string)
    (d : delta_msg) :
  db_positive db → valid_side (side d) →
  ∃ db', update_orderbook_state now db t d = Some db' ∧ db_positive db'.
Proof.
  intros Hdb Hside. unfold update_orderbook_state.
  destruct (get_side_valid (book_of (orderbook_state db) t) _ Hside)
    as [m Hm].
  rewrite Hm. eexists. split; [done|].
  pose proof (book_of_positive db t Hdb) as Hb.
  assert (book_positive
            (set_side (book_of (orderbook_state db) t) (side d)
               (apply_delta m (price d) (delta d)))) as Hb'.
  { apply set_side_positive; [done|].
    apply apply_delta_positive. by eapply get_side_positive. }
  apply insert_book_positive; [done|done|].
  apply store_row_positive; [apply Hdb|by apply snapshot_of_positive].
Qed.

Lemma run_positive (ms : list feed_msg) (db : OrderbookDatabase) :
  db_positive db → Forall msg_positive ms →
  ∃ db', run db ms = Some db' ∧ db_positive db'.
Proof.
  revert db. induction ms as [|m ms IH]; intros db Hdb Hms.
  - by exists db.
  - apply Forall_cons in Hms as [Hm Hms]. cbn.
    destruct m as [now t s|now t d]; cbn in *.
    + apply IH; [|done]. by apply initialize_positive.
    + destruct (update_positive now db t d Hdb Hm) as (db' & -> & Hdb').
      by apply IH.
Qed.

Lemma fresh_database_positive : db_positive fresh_database.
Proof.
  split; cbn; [|done]. intros t b. by rewrite lookup_empty.
Qed.

(** *** Snapshot initialisation *)

Lemma book_of_insert (st : gmap string book) (t : string) (b : book) :
  book_of (<[t := b]> st) t = b.
Proof. unfold book_of. by rewrite lookup_insert_eq. Qed.

(** A level of the prior state whose price is absent from the message is
    still in the map after the call. *)
Lemma initialize_keeps_unmentioned_yes (now : Z) (db : OrderbookDatabase)
    (t : string) (s : snapshot) (p sz : Z) :
  yes (book_of (orderbook_state db) t) !! p = Some sz →
  p ∉ (get_levels (snap_yes s)).*1 →
  yes (book_of (orderbook_state
                  (initialize_orderbook_from_snapshot now db t s)) t) !! p
    = Some sz.
Proof.
  intros Hp Hnot. unfold initialize_orderbook_from_snapshot. cbn.
  rewrite book_of_insert. cbn. by rewrite store_levels_untouched.
Qed.

(** For a ticker without prior state the maps hold pairs of the message
    only. *)
Lemma initialize_fresh_yes (now : Z) (db : OrderbookDatabase)
    (t : string) (s : snapshot) (p sz : Z) :
  orderbook_state db !! t = None →
  yes (book_of (orderbook_state
                  (initialize_orderbook_from_snapshot now db t s)) t) !! p
    = Some sz →
  (p, sz) ∈ get_levels (snap_yes s).
Proof.
  intros Hnone. unfold initialize_orderbook_from_snapshot. cbn.
  rewrite book_of_insert. cbn. unfold book_of. rewrite Hnone. cbn.
  intros Hs. destruct (decide (p ∈ (get_levels (snap_yes s)).*1)) as [Hin|Hn].
  - by eapply store_levels_mentioned.
  - rewrite store_levels_untouched in Hs by done.
    by rewrite lookup_empty in Hs.
Qed.

(** C2 (evaluation at the failing input): after a second snapshot
    message for the same ticker, the YES level 40 and the NO level 50 of
    the first message are still in the maps although the second message
    does not contain them, while the row persisted for the call is the
    second message itself: the levels are overlaid on the prior state,
    not replaced. *)
Theorem C2_second_snapshot_keeps_old_levels :
  let b := book_of (orderbook_state after_two_snapshots) "T" in
  yes b !! 40 = Some 5 ∧ yes b !! 45 = Some 3 ∧
  no b !! 50 = Some 2 ∧ no b !! 58 = Some 10 ∧
  ((40, 5) ∉ get_levels (snap_yes second_snapshot)) ∧
  ((50, 2) ∉ get_levels (snap_no second_snapshot)) ∧
  row_snapshot <$> last (orderbook_snapshots after_two_snapshots)
    = Some second_snapshot.
Proof.
  cbn. repeat split; try by vm_compute.
  - intros H. apply list_elem_of_singleton in H. discriminate.
  - intros H. apply list_elem_of_singleton in H. discriminate.
Qed.

(** *** The size invariant *)

(** C3 (counterexample): a snapshot message that lists a level of size 0
    leaves that level, with size 0, in the map of a book that held
    nothing before. *)
Lemma C3_snapshot_stores_zero_size :
  db_positive fresh_database ∧
  ¬ db_positive
      (initialize_orderbook_from_snapshot 0 fresh_database "T"
         (Snapshot (Some [(40, 0)]) None)).
Proof.
  split; [apply fresh_database_positive|].
  intros [Hst _].
  specialize (Hst "T"%string (Book {[40 := 0]} ∅)).
  assert (book_positive (Book {[40 := 0]} ∅)) as [Hy _].
  { apply Hst. by vm_compute. }
  specialize (Hy 40 0). cbn in Hy.
  rewrite lookup_singleton_eq in Hy. specialize (Hy eq_refl). lia.
Qed.

(** C3 (amended): starting from a database in which every stored and
    every persisted level has size > 0, any sequence of feed messages in
    which the snapshot messages list positive sizes only (and the deltas
    name the side yes or no) is processed to the end and leaves a
    database with the same property.  The empty database has the
    property, so this covers every sequence of deltas applied to an
    initially empty book. *)
Theorem C3_sizes_stay_positive (db : OrderbookDatabase)
    (ms : list feed_msg) :
  db_positive db → Forall msg_positive ms →
  ∃ db', run db ms = Some db' ∧ db_positive db'.
Proof. intros. by apply run_positive. Qed.

Lemma C3_sizes_stay_positive_witness :
  ∃ db',
    run fresh_database
      [OrderbookDelta 1 "T" (DeltaMsg 40 5 "yes" (Some 7));
       OrderbookDelta 2 "T" (DeltaMsg 40 (-5) "yes" None);
       OrderbookDelta 3 "T" (DeltaMsg 50 (-2) "no" (Some 9));
       OrderbookSnapshot 4 "T" (Snapshot (Some [(45, 3)]) None)]
      = Some db' ∧ db_positive db'.
Proof.
  apply (C3_sizes_stay_positive fresh_database).
  - apply fresh_database_positive.
  - repeat constructor; cbn; lia.
Defined.

(** *** Applying a delta *)

(** C4: for a delta whose side is yes or no, [update_orderbook_state]
    returns (also for a ticker without prior state, whose book is then
    empty before the delta); on the named side the level at the delta's
    price is absent afterwards when current size (0 if absent) plus delta
    is ≤ 0 and holds that sum otherwise, every other price is as before;
    so a delta of minus the current size removes the level, and a
    positive delta on an absent level inserts it with the delta as
    size. *)
Theorem C4_update_orderbook_state (now : Z) (db : OrderbookDatabase)
    (ticker : string) (msg : delta_msg) :
  valid_side (side msg) →
  ∃ db' before after,
    update_orderbook_state now db ticker msg = Some db' ∧
    get_side (book_of (orderbook_state db) ticker) (side msg)
      = Some before ∧
    get_side (book_of (orderbook_state db') ticker) (side msg)
      = Some after ∧
    (orderbook_state db !! ticker = None → before = ∅) ∧
    (∀ p, after !! p =
          if decide (p = price msg)
          then (if decide (default 0 (before !! price msg) + delta msg ≤ 0)
                then None
                else Some (default 0 (before !! price msg) + delta msg))
          else before !! p) ∧
    (delta msg = - default 0 (before !! price msg) →
     after !! price msg = None) ∧
    (before !! price msg = None → 0 < delta msg →
     after !! price msg = Some (delta msg)).
Proof.
  intros Hside.
  destruct (get_side_valid (book_of (orderbook_state db) ticker) _ Hside)
    as [before Hbefore].
  unfold update_orderbook_state. rewrite Hbefore.
  eexists _, before, (apply_delta before (price msg) (delta msg)).
  split; [done|]. split; [done|]. cbn. rewrite book_of_insert.
  split; [by eapply get_set_side|].
  split.
  { intros Hnone. unfold book_of in Hbefore. rewrite Hnone in Hbefore.
    unfold get_side in Hbefore. cbn in Hbefore.
    repeat case_decide; by simplify_eq. }
  split; [intros p; apply apply_delta_lookup|].
  split.
  - intros Hd. rewrite apply_delta_lookup.
    rewrite decide_True by done. rewrite decide_True by lia. done.
  - intros Habs Hpos. rewrite apply_delta_lookup.
    rewrite decide_True by done. rewrite Habs. cbn.
    rewrite decide_False by lia. f_equal.
Qed.

Lemma C4_update_orderbook_state_witness :
  ∃ db' before after,
    update_orderbook_state 9 fresh_database "T"
        (DeltaMsg 40 5 "yes" None) = Some db' ∧
    get_side (book_of (orderbook_state fresh_database) "T") "yes"
      = Some before ∧
    get_side (book_of (orderbook_state db') "T") "yes" = Some after ∧
    (orderbook_state fresh_database !! "T"%string = None → before = ∅) ∧
    (∀ p, after !! p =
          if decide (p = 40)
          then (if decide (default 0 (before !! 40) + 5 ≤ 0) then None
                else Some (default 0 (before !! 40) + 5))
          else before !! p) ∧
    (5 = - default 0 (before !! 40) → after !! 40 = None) ∧
    (before !! 40 = None → 0 < 5 → after !! 40 = Some 5).
Proof.
  apply (C4_update_orderbook_state 9 fresh_database "T"
           (DeltaMsg 40 5 "yes" None)).
  left. reflexivity.
Defined.

End OrderbookProofs.

(* ===================================================================== *)
(** * Properties of the slippage and markout analysis                     *)
(* ===================================================================== *)

Module SlippageProofs.
Import Py Slippage.

(** *** Sorting by timestamp *)

#[local] Instance trade_le_transitive : Transitive trade_le.
Proof. intros a b c. unfold trade_le. lia. Qed.
#[local] Instance trade_le_total : Total trade_le.
Proof. intros a b. unfold trade_le. lia. Qed.
#[local] Instance snap_le_transitive : Transitive snap_le.
Proof. intros a b c. unfold snap_le. lia. Qed.
#[local] Instance snap_le_total : Total snap_le.
Proof. intros a b. unfold snap_le. lia. Qed.

Lemma sort_snapshots_sorted (l : list (Z * Q)) :
  StronglySorted snap_le (sort_snapshots l).
Proof. apply StronglySorted_merge_sort; apply _. Qed.

Lemma sort_trades_keys_sorted (l : list trade) (h : Z) :
  StronglySorted Z.le ((fun t => timestamp t + h) <$> sort_trades l).
Proof.
  apply (StronglySorted_fmap _ trade_le).
  - intros x y. unfold trade_le. lia.
  - apply StronglySorted_merge_sort; apply _.
Qed.

Lemma sort_trades_timestamps_sorted (l : list trade) :
  StronglySorted Z.le (timestamp <$> sort_trades l).
Proof.
  apply (StronglySorted_fmap _ trade_le).
  - intros x y. unfold trade_le. lia.
  - apply StronglySorted_merge_sort; apply _.
Qed.

(** *** The two-cursor join never selects a later row *)

Lemma advance_never_ahead (t : Z) (right : list (Z * Q))
    (last : option (Z * Q)) :
  (∀ s, last = Some s → s.1 ≤ t) →
  ∀ s, (advance t last right).1 = Some s → s.1 ≤ t.
Proof.
  revert last. induction right as [|r right IH]; intros last Hlast s; cbn.
  - apply Hlast.
  - destruct (Z.leb_spec r.1 t) as [Hle|Hgt].
    + apply IH. by intros s' [= <-].
    + apply Hlast.
Qed.

Lemma asof_join_never_ahead (left : list Z) :
  StronglySorted Z.le left →
  ∀ (last : option (Z * Q)) (right : list (Z * Q)),
    (∀ s, last = Some s → Forall (Z.le s.1) left) →
    never_ahead left (asof_join_backward left last right).
Proof.
  induction 1 as [|t left Hsorted IH Hall]; intros last right Hlast; cbn.
  - constructor.
  - assert (∀ s, (advance t last right).1 = Some s → s.1 ≤ t) as Hsel.
    { apply advance_never_ahead. intros s Hs.
      specialize (Hlast s Hs). by apply Forall_cons in Hlast as [? _]. }
    constructor; [done|].
    apply IH. intros s Hs. specialize (Hsel s Hs).
    eapply Forall_impl; [exact Hall|]. cbn. intros; lia.
Qed.

(** For left keys in ascending order, whatever the right rows are. *)
Lemma merge_asof_never_ahead (left : list Z) (right : list (Z * Q)) :
  StronglySorted Z.le left → never_ahead left (merge_asof left right).
Proof.
  intros Hsorted. unfold merge_asof.
  by apply asof_join_never_ahead.
Qed.

(** *** The two-cursor join computes [asof] *)

Lemma filter_all {A} (P : A → Prop) `{∀ x, Decision (P x)} (l : list A) :
  Forall P l → filter P l = l.
Proof.
  induction 1 as [|x l Hx _ IH]; [done|].
  by rewrite filter_cons_True, IH.
Qed.

Lemma filter_none {A} (P : A → Prop) `{∀ x, Decision (P x)} (l : list A) :
  Forall (fun x => ¬ P x) l → filter P l = [].
Proof.
  induction 1 as [|x l Hx _ IH]; [done|].
  by rewrite filter_cons_False.
Qed.

(** One run of the inner loop.  [behind] is the part of the right frame
    behind the cursor, [ahead] the part in front of it. *)
Lemma advance_asof (t : Z) (rest behind : list (Z * Q)) :
  StronglySorted snap_le (behind ++ rest) →
  Forall (fun d => d.1 ≤ t) behind →
  ∃ behind',
    (advance t (last behind) rest).1 = last behind' ∧
    behind ++ rest = behind' ++ (advance t (last behind) rest).2 ∧
    Forall (fun d => d.1 ≤ t) behind' ∧
    last behind' = asof t (behind ++ rest).
Proof.
  revert behind. induction rest as [|r rest IH]; intros behind Hsorted Hdone.
  - exists behind. cbn. repeat split; [done|].
    unfold asof. rewrite app_nil_r. by rewrite filter_all.
  - cbn. destruct (Z.leb_spec r.1 t) as [Hle|Hgt].
    + destruct (IH (behind ++ [r])) as (behind' & H1 & H2 & H3 & H4).
      * by rewrite <- app_assoc.
      * apply Forall_app. split; [done|]. by apply Forall_singleton.
      * rewrite last_snoc in H1, H2. rewrite <- app_assoc in H2, H4.
        by exists behind'.
    + exists behind. cbn. repeat split; [done|].
      unfold asof. rewrite filter_app, (filter_all _ behind) by done.
      rewrite filter_none; [by rewrite app_nil_r|].
      apply StronglySorted_app_1_r in Hsorted.
      apply StronglySorted_cons in Hsorted as [Hall _].
      apply Forall_cons. split; [lia|].
      eapply Forall_impl; [exact Hall|]. unfold snap_le. cbn. intros; lia.
Qed.

Lemma asof_join_backward_asof (left : list Z) :
  StronglySorted Z.le left →
  ∀ behind rest : list (Z * Q),
    StronglySorted snap_le (behind ++ rest) →
    Forall (fun d => Forall (Z.le d.1) left) behind →
    asof_join_backward left (last behind) rest
      = (fun t => asof t (behind ++ rest)) <$> left.
Proof.
  induction 1 as [|t left Hsorted IH Hall]; intros behind rest Hs Hdone;
    [done|].
  cbn.
  destruct (advance_asof t rest behind Hs) as (behind' & H1 & H2 & H3 & H4).
  { eapply Forall_impl; [exact Hdone|]. cbn. intros d Hd.
    by apply Forall_cons in Hd as [? _]. }
  rewrite H1, H4. f_equal.
  rewrite <- H4, H2. apply IH.
  - by rewrite <- H2.
  - eapply Forall_impl; [exact H3|]. cbn. intros d Hd.
    eapply Forall_impl; [exact Hall|]. cbn. intros; lia.
Qed.

(** On frames sorted by timestamp, [merge_asof] selects for each left
    key the last right row that is not after it. *)
Lemma merge_asof_asof (left : list Z) (right : list (Z * Q)) :
  StronglySorted Z.le left → StronglySorted snap_le right →
  merge_asof left right = (fun t => asof t right) <$> left.
Proof.
  intros Hl Hr. unfold merge_asof.
  by apply (asof_join_backward_asof left Hl [] right).
Qed.

(** *** The rows of [process_data] *)

Lemma zip_fmap_self {A B} (f : A → B) (l : list A) :
  zip l (f <$> l) = (fun x => (x, f x)) <$> l.
Proof. induction l as [|x l IH]; [done|]. cbn. by rewrite IH. Qed.

Lemma process_data_rows (trades_df : list trade_row)
    (snapshots_df : list snapshot_row) :
  process_data trades_df snapshots_df
    = row_of (valid_snapshots snapshots_df) <$> valid_trades trades_df.
Proof.
  unfold process_data.
  set (snaps := valid_snapshots snapshots_df).
  set (trades := valid_trades trades_df).
  assert (StronglySorted snap_le snaps) as Hsnaps
    by apply sort_snapshots_sorted.
  unfold trade_matches.
  rewrite merge_asof_asof;
    [|apply sort_trades_timestamps_sorted|done].
  rewrite <- list_fmap_compose, zip_fmap_self, imap_fmap.
  rewrite <- imap_const. apply imap_ext. intros i t Hi.
  unfold row_of, compose, const. f_equal. unfold future_mids_at.
  apply list_fmap_ext. intros _ h _. f_equal.
  unfold horizon_matches.
  rewrite merge_asof_asof; [|apply sort_trades_keys_sorted|done].
  rewrite <- list_fmap_compose, list_lookup_fmap, Hi. done.
Qed.

Lemma elem_of_process_data (trades_df : list trade_row)
    (snapshots_df : list snapshot_row) (r : merged_row) :
  r ∈ process_data trades_df snapshots_df ↔
  ∃ t, r = row_of (valid_snapshots snapshots_df) t ∧
       t ∈ omap parse_trade trades_df.
Proof.
  rewrite process_data_rows, list_elem_of_fmap.
  split; intros (t & Hr & Hin); exists t; (split; [done|]).
  - unfold valid_trades, sort_trades in Hin.
    by rewrite merge_sort_Permutation in Hin.
  - unfold valid_trades, sort_trades.
    by rewrite merge_sort_Permutation.
Qed.

Lemma elem_of_valid_snapshots (snapshots_df : list snapshot_row)
    (s : Z * Q) :
  s ∈ valid_snapshots snapshots_df →
  ∃ row, row ∈ snapshots_df ∧ snap_timestamp row = s.1.
Proof.
  unfold valid_snapshots, sort_snapshots.
  rewrite merge_sort_Permutation, list_elem_of_omap.
  intros (row & Hin & Hrow). exists row. split; [done|].
  unfold parse_snapshot_row in Hrow.
  destruct (mid_price_of _); cbn in Hrow; [|done].
  by injection Hrow as <-.
Qed.

(** [asof] is defined as soon as some row is not after the query. *)
Lemma asof_is_Some (t : Z) (snaps : list (Z * Q)) (s : Z * Q) :
  s ∈ snaps → s.1 ≤ t → is_Some (asof t snaps).
Proof.
  intros Hin Hle. unfold asof. apply last_is_Some.
  intros Hnil. eapply (filter_nil_not_elem_of _ _ s); done.
Qed.

Lemma asof_later (t t' : Z) (snaps : list (Z * Q)) :
  t ≤ t' → is_Some (asof t snaps) → is_Some (asof t' snaps).
Proof.
  intros Hle [s Hs]. unfold asof in Hs.
  apply last_Some_elem_of, list_elem_of_filter in Hs as [Hst Hin].
  apply (asof_is_Some _ _ s); [done|lia].
Qed.

Lemma asof_None (t : Z) (snaps : list (Z * Q)) :
  (∀ s, s ∈ snaps → t < s.1) → asof t snaps = None.
Proof.
  intros Hall. unfold asof. rewrite filter_none; [done|].
  apply Forall_forall. intros s Hin. specialize (Hall s Hin). lia.
Qed.

Lemma intervals_nonneg (h : Z) : h ∈ intervals → 0 ≤ h.
Proof.
  unfold intervals. intros Hin.
  repeat (apply elem_of_cons in Hin as [->|Hin]; [lia|]).
  by apply elem_of_nil in Hin.
Qed.

(** The join selects a latest snapshot. *)
Lemma filter_strongly_sorted {A} (R : relation A) (P : A → Prop)
    `{∀ x, Decision (P x)} (l : list A) :
  StronglySorted R l → StronglySorted R (filter P l).
Proof.
  induction 1 as [|x l Hs IH Hall]; [constructor|].
  rewrite filter_cons. destruct (decide (P x)); [|done].
  constructor; [done|].
  apply Forall_forall. intros y Hy.
  apply list_elem_of_filter in Hy as [_ Hy].
  rewrite Forall_forall in Hall. by apply Hall.
Qed.

Lemma asof_latest (t : Z) (snaps : list (Z * Q)) :
  StronglySorted snap_le snaps →
  latest_not_after snaps t (asof t snaps).
Proof.
  intros Hsorted. unfold latest_not_after, asof.
  destruct (last _) as [s|] eqn:Hlast.
  - pose proof (filter_strongly_sorted snap_le (fun r => r.1 ≤ t) snaps
                  Hsorted) as Hf.
    apply last_Some in Hlast as [l' Hl']. rewrite Hl' in Hf.
    assert (s ∈ filter (fun r => r.1 ≤ t) snaps) as Hs.
    { rewrite Hl'. apply elem_of_app. right.
      by apply list_elem_of_singleton. }
    apply list_elem_of_filter in Hs as [Hst Hs].
    split; [done|]. split; [done|].
    intros s' Hs' Hle.
    assert (s' ∈ l' ++ [s]) as Hin.
    { rewrite <- Hl'. by apply list_elem_of_filter. }
    apply elem_of_app in Hin as [Hin|Hin].
    + apply (StronglySorted_app_1_elem_of _ _ _ _ _ Hf Hin).
      by apply list_elem_of_singleton.
    + apply list_elem_of_singleton in Hin as ->. lia.
  - apply last_None in Hlast. intros s' Hs'.
    destruct (decide (s'.1 ≤ t)) as [Hle|]; [|lia].
    by destruct (filter_nil_not_elem_of _ _ s' Hlast Hle).
Qed.

(** The rows of the result are the trades that have an execution price,
    one row per trade. *)
Lemma process_data_trades (trades_df : list trade_row)
    (snapshots_df : list snapshot_row) :
  (fun r => Trade (m_timestamp r) (m_exec_price r) (m_count r))
    <$> process_data trades_df snapshots_df
  ≡ₚ omap parse_trade trades_df.
Proof.
  rewrite process_data_rows. unfold valid_trades, sort_trades.
  rewrite <- list_fmap_compose.
  set (sorted := merge_sort trade_le (omap parse_trade trades_df)).
  assert (((fun r => Trade (m_timestamp r) (m_exec_price r) (m_count r))
           ∘ row_of (valid_snapshots snapshots_df)) <$> sorted = sorted)
    as ->.
  { rewrite <- (list_fmap_id sorted) at 2.
    apply list_fmap_ext. intros _ [ts p c] _. done. }
  apply merge_sort_Permutation.
Qed.

(** *** The claims *)

(** C1: in [process_data], the snapshot that the backward as-of join
    selects for a trade is never later than the trade, and the snapshot
    it selects for the trade time plus an interval of 1, 10, 30, 60 or 300
    seconds is never later than that shifted time; this holds for every
    trade table and every snapshot table, which the function sorts by
    timestamp itself.  ([m_mid_price] and [m_future_mid] are the mid
    prices of exactly these selections.) *)
Theorem C1_asof_join_never_looks_ahead (trades_df : list trade_row)
    (snapshots_df : list snapshot_row) :
  let snaps := valid_snapshots snapshots_df in
  let trades := valid_trades trades_df in
  never_ahead (timestamp <$> trades) (trade_matches trades snaps) ∧
  Forall (fun h =>
            never_ahead ((fun t => timestamp t + h) <$> trades)
                        (horizon_matches h trades snaps))
         intervals.
Proof.
  cbn zeta. split.
  - apply merge_asof_never_ahead, sort_trades_timestamps_sorted.
  - apply Forall_forall. intros h _.
    apply merge_asof_never_ahead, sort_trades_keys_sorted.
Qed.

(** C6: a trade at second 5, before the only snapshot (second 10), is
    not excluded from the markout computation: it is a row of the result
    of [process_data] in which the mid price, the slippage and the
    slippage paid have no value, while the markout is 0 at every interval,
    also at the intervals where the future mid price is known; and this 0
    is counted in the mean markout of [plot_results], which for that
    trade and a trade at second 12 with markout −6.5 at 10 seconds is
    −3.25. *)
Theorem C6_early_trade_is_zero_filled :
  Forall (fun s => trade_timestamp early_trade < snap_timestamp s)
         example_snapshots ∧
  process_data [early_trade] example_snapshots =
    [MergedRow 5 50 3 None 0 None None
       [(1, None); (10, Some (87 # 2)); (30, Some (87 # 2));
        (60, Some (87 # 2)); (300, Some (87 # 2))]
       [(1, Some 0%Q); (10, Some 0%Q); (30, Some 0%Q); (60, Some 0%Q);
        (300, Some 0%Q)]] ∧
  SlippageReport.markout_column 10
    <$> process_data [early_trade; late_trade] example_snapshots
    = [Some 0%Q; Some (-13 # 2)] ∧
  ∃ mean,
    SlippageReport.mean_markout
      (process_data [early_trade; late_trade] example_snapshots) 10
      = Some mean ∧
    (mean == - (13 # 4))%Q.
Proof.
  split; [repeat constructor|].
  split; [vm_compute; reflexivity|].
  split; [vm_compute; reflexivity|].
  eexists. split; [vm_compute; reflexivity|]. reflexivity.
Qed.

(** A trade with an execution price whose timestamp precedes every
    snapshot stays in the result of [process_data]: its row has no value
    for the mid price, the slippage and the slippage paid, has side 0,
    and has markout 0 at every interval. *)
Theorem trade_before_history (trades_df : list trade_row)
    (snapshots_df : list snapshot_row) (tr : trade_row) (t : trade) :
  tr ∈ trades_df →
  parse_trade tr = Some t →
  (∀ s, s ∈ snapshots_df → trade_timestamp tr < snap_timestamp s) →
  ∃ r, r ∈ process_data trades_df snapshots_df ∧
       m_timestamp r = trade_timestamp tr ∧
       m_exec_price r = exec_price t ∧
       m_count r = trade_count t ∧
       m_mid_price r = None ∧
       m_side r = 0 ∧
       m_slippage r = None ∧
       m_slippage_paid r = None ∧
       m_markout r = (fun h => (h, Some 0%Q)) <$> intervals.
Proof.
  intros Hin Hparse Hearly.
  assert (timestamp t = trade_timestamp tr) as Hts.
  { unfold parse_trade in Hparse.
    destruct (get_trade_details _).1; cbn in Hparse; [|done].
    by injection Hparse as <-. }
  exists (row_of (valid_snapshots snapshots_df) t). split.
  { apply elem_of_process_data. exists t. split; [done|].
    apply list_elem_of_omap. by exists tr. }
  assert (asof (timestamp t) (valid_snapshots snapshots_df) = None) as Hno.
  { apply asof_None. intros s Hs.
    apply elem_of_valid_snapshots in Hs as (row & Hrow & <-).
    rewrite Hts. by apply Hearly. }
  unfold row_of, build_row. cbn. rewrite Hno. cbn.
  by repeat split.
Qed.

Lemma trade_before_history_witness :
  ∃ r, r ∈ process_data [early_trade; late_trade] example_snapshots ∧
       m_timestamp r = 5 ∧
       m_exec_price r = 50%Q ∧
       m_count r = 3 ∧
       m_mid_price r = None ∧
       m_side r = 0 ∧
       m_slippage r = None ∧
       m_slippage_paid r = None ∧
       m_markout r = (fun h => (h, Some 0%Q)) <$> intervals.
Proof.
  apply (trade_before_history [early_trade; late_trade]
           example_snapshots early_trade (Trade 5 50 3)).
  - apply elem_of_cons. by left.
  - reflexivity.
  - intros s Hs. apply list_elem_of_singleton in Hs as ->. cbn. lia.
Defined.

(** The side is ±1 only for a trade with a mid price at trade time. *)
Lemma side_of_nonzero (exec : Q) (mid : option Q) :
  side_of exec mid ≠ 0 → is_Some mid.
Proof. destruct mid; [by eexists|done]. Qed.

Lemma future_mid_defined (snaps : list (Z * Q)) (t h : Z) :
  0 ≤ h → is_Some (snd <$> asof t snaps) →
  is_Some (snd <$> asof (t + h) snaps).
Proof.
  intros Hh Hmid. apply fmap_is_Some. apply fmap_is_Some in Hmid.
  eapply asof_later; [|exact Hmid]. lia.
Qed.

(** C8: [process_data] returns one row for every trade that has an
    execution price, and in every row and for every interval h, the
    column [mid_price_{h}s] holds the mid price of a latest snapshot not
    after timestamp + h (it has a value whenever the trade has a mid
    price at trade time), and the column [markout_{h}s] holds that future
    mid price minus the execution price when the side is +1, the
    execution price minus that future mid price when the side is −1, and
    0 otherwise, the side being the one inferred from the execution price
    and the mid price at trade time; with side +1, execution 50 and
    future mid 53 this is +3, and with side −1 it is −3. *)
Theorem C8_markout_formula (trades_df : list trade_row)
    (snapshots_df : list snapshot_row) :
  (fun r => Trade (m_timestamp r) (m_exec_price r) (m_count r))
    <$> process_data trades_df snapshots_df
    ≡ₚ omap parse_trade trades_df ∧
  (∀ (r : merged_row) (i : nat) (h : Z),
     r ∈ process_data trades_df snapshots_df →
     intervals !! i = Some h →
     ∃ future markout,
       m_future_mid r !! i = Some (h, snd <$> future) ∧
       m_markout r !! i = Some (h, markout) ∧
       latest_not_after (valid_snapshots snapshots_df)
                        (m_timestamp r + h) future ∧
       (is_Some (m_mid_price r) → is_Some future) ∧
       m_side r = side_of (m_exec_price r) (m_mid_price r) ∧
       (m_side r = 1 →
        ∃ f, snd <$> future = Some f ∧
             markout = Some (f - m_exec_price r)%Q) ∧
       (m_side r = -1 →
        ∃ f, snd <$> future = Some f ∧
             markout = Some (m_exec_price r - f)%Q) ∧
       (m_side r ≠ 1 → m_side r ≠ -1 → markout = Some 0%Q)) ∧
  markout_of 1 50 (Some 53%Q) = Some 3%Q ∧
  markout_of (-1) 50 (Some 53%Q) = Some (-3)%Q.
Proof.
  split; [apply process_data_trades|]. split; [|by split].
  intros r i h Hr Hi.
  apply elem_of_process_data in Hr as (t & -> & _).
  set (snaps := valid_snapshots snapshots_df).
  assert (0 ≤ h) as Hh.
  { apply intervals_nonneg. by eapply list_elem_of_lookup_2. }
  unfold row_of, build_row. cbn [m_future_mid m_markout m_side
    m_exec_price m_timestamp m_mid_price fst snd].
  set (mid := snd <$> asof (timestamp t) snaps).
  set (side := side_of (exec_price t) mid).
  exists (asof (timestamp t + h) snaps),
         (markout_of side (exec_price t)
            (snd <$> asof (timestamp t + h) snaps)).
  split; [by rewrite list_lookup_fmap, Hi|].
  split; [by rewrite !list_lookup_fmap, Hi|].
  split; [apply asof_latest, sort_snapshots_sorted|].
  assert (is_Some mid → is_Some (asof (timestamp t + h) snaps)) as Hdef.
  { intros Hmid. apply fmap_is_Some in Hmid.
    eapply asof_later; [|exact Hmid]. lia. }
  split; [exact Hdef|]. split; [done|].
  assert (side ≠ 0 → ∃ f, snd <$> asof (timestamp t + h) snaps = Some f)
    as Hf.
  { intros Hside. apply fmap_is_Some, Hdef.
    by eapply side_of_nonzero. }
  repeat split.
  - intros Hs. destruct Hf as [f Hf]; [lia|]. exists f.
    by rewrite Hs, Hf.
  - intros Hs. destruct Hf as [f Hf]; [lia|]. exists f.
    by rewrite Hs, Hf.
  - intros H1 H2. unfold markout_of.
    destruct (Z.eqb_spec side 1); [done|].
    destruct (Z.eqb_spec side (-1)); done.
Qed.

Lemma C8_markout_formula_witness :
  ∃ buy sell,
    process_data markout_trades markout_snapshots = [buy; sell] ∧
    m_side buy = 1 ∧ m_side sell = -1 ∧
    (m_exec_price buy == 50)%Q ∧ (m_exec_price sell == 50)%Q ∧
    (∃ f mk, m_future_mid buy !! 1%nat = Some (10, Some f) ∧
             m_markout buy !! 1%nat = Some (10, Some mk) ∧
             (f == 53)%Q ∧ (mk == 3)%Q) ∧
    (∃ f mk, m_future_mid sell !! 1%nat = Some (10, Some f) ∧
             m_markout sell !! 1%nat = Some (10, Some mk) ∧
             (f == 53)%Q ∧ (mk == -3)%Q).
Proof.
  destruct (process_data markout_trades markout_snapshots)
    as [|buy [|sell [|]]] eqn:Hrows; try (vm_compute in Hrows; discriminate).
  pose proof (C8_markout_formula markout_trades markout_snapshots)
    as (_ & Hrow & _).
  rewrite Hrows in Hrow.
  assert (m_side buy = 1 ∧ m_side sell = -1 ∧
          m_exec_price buy = 50%Q ∧ m_exec_price sell = 50%Q ∧
          m_future_mid buy !! 1%nat = Some (10, Some (106 # 2)) ∧
          m_future_mid sell !! 1%nat = Some (10, Some (106 # 2)))
    as (Hb & Hs & Hbe & Hse & Hbf & Hsf).
  { vm_compute in Hrows. injection Hrows as <- <-. by repeat split. }
  exists buy, sell. split; [done|]. split; [done|]. split; [done|].
  split; [by rewrite Hbe|]. split; [by rewrite Hse|]. split.
  - destruct (Hrow buy 1%nat 10) as (fut & mk & Hf & Hm & _ & _ & _ & H1 & _);
      [apply list_elem_of_here|done|].
    destruct (H1 Hb) as (f & Hfut & ->).
    rewrite Hfut, Hbf in Hf. injection Hf as <-.
    exists (106 # 2), ((106 # 2) - m_exec_price buy)%Q.
    split; [done|]. split; [done|]. rewrite Hbe. by split.
  - destruct (Hrow sell 1%nat 10) as (fut & mk & Hf & Hm & _ & _ & _ & _ & H1 & _);
      [apply list_elem_of_further, list_elem_of_here|done|].
    destruct (H1 Hs) as (f & Hfut & ->).
    rewrite Hfut, Hsf in Hf. injection Hf as <-.
    exists (106 # 2), (m_exec_price sell - (106 # 2))%Q.
    split; [done|]. split; [done|]. rewrite Hse. by split.
Defined.

(** Execution 52 against mid 50 is a buy with slippage 2; execution 48
    against mid 50 is a sell with slippage 2. *)
Example slippage_of_buy_and_sell :
  side_of 52 (Some 50%Q) = 1 ∧
  slippage_of 52 (Some 50%Q) (side_of 52 (Some 50%Q)) = Some 2%Q ∧
  side_of 48 (Some 50%Q) = -1 ∧
  slippage_of 48 (Some 50%Q) (side_of 48 (Some 50%Q)) = Some 2%Q.
Proof. by repeat split. Qed.

(** C9: in every row of [process_data] that has a mid price at trade
    time, the side is +1 exactly when the execution price is above the
    mid price, −1 exactly when it is below and 0 exactly when the two are
    equal; the slippage is (execution price − mid price) × side, it is
    never negative, and it is positive when the side is ±1. *)
Theorem C9_slippage_nonnegative (trades_df : list trade_row)
    (snapshots_df : list snapshot_row) (r : merged_row) (mid : Q) :
  r ∈ process_data trades_df snapshots_df →
  m_mid_price r = Some mid →
  (m_side r = 1 ↔ (mid < m_exec_price r)%Q) ∧
  (m_side r = -1 ↔ (m_exec_price r < mid)%Q) ∧
  (m_side r = 0 ↔ (m_exec_price r == mid)%Q) ∧
  ∃ slippage,
    m_slippage r = Some slippage ∧
    slippage = ((m_exec_price r - mid) * inject_Z (m_side r))%Q ∧
    (0 <= slippage)%Q ∧
    (m_side r = 1 ∨ m_side r = -1 → (0 < slippage)%Q).
Proof.
  intros Hr Hmid.
  apply elem_of_process_data in Hr as (t & -> & _).
  unfold row_of, build_row in *.
  cbn [m_mid_price m_side m_slippage m_exec_price fst snd] in *.
  rewrite Hmid. cbn [side_of slippage_of mbind option_bind].
  pose proof (Qlt_alt (exec_price t) mid) as Hlt.
  pose proof (Qgt_alt (exec_price t) mid) as Hgt.
  pose proof (Qeq_alt (exec_price t) mid) as Heq.
  destruct (exec_price t ?= mid)%Q.
  - assert (exec_price t == mid)%Q as He by (by apply Heq).
    repeat split; try done; try (intros; lra).
    eexists. split; [done|]. split; [done|].
    split; [|intros [|]; done].
    change (inject_Z 0) with 0%Q. lra.
  - assert (exec_price t < mid)%Q as He by (by apply Hlt).
    repeat split; try done; try (intros; lra).
    eexists. split; [done|]. split; [done|].
    change (inject_Z (-1)) with (-1 # 1)%Q.
    split; [lra|intros; lra].
  - assert (mid < exec_price t)%Q as He by (by apply Hgt).
    repeat split; try done; try (intros; lra).
    eexists. split; [done|]. split; [done|].
    change (inject_Z 1) with 1%Q.
    split; [lra|intros; lra].
Qed.

Lemma C9_slippage_nonnegative_witness :
  ∃ slippage,
    m_slippage (row_of (valid_snapshots example_snapshots) (Trade 12 50 2))
      = Some slippage ∧
    (0 < slippage)%Q.
Proof.
  destruct (C9_slippage_nonnegative [early_trade; late_trade]
              example_snapshots
              (row_of (valid_snapshots example_snapshots) (Trade 12 50 2))
              (87 # 2))
    as (H1 & _ & _ & s & Hs & _ & _ & Hpos).
  - vm_compute. apply list_elem_of_further, list_elem_of_here.
  - reflexivity.
  - exists s. split; [exact Hs|]. apply Hpos. left. reflexivity.
Defined.

End SlippageProofs.

(* ===================================================================== *)
(** * Properties of the best-price extractors                             *)
(* ===================================================================== *)

Module BestPriceProofs.
Import Py Slippage Predictability.

(** *** The builtin [max] *)

Lemma foldl_max_step_id (l : list Z) (x : Z) :
  is_max (foldl (max_step id) x l) (x :: l).
Proof.
  revert x. induction l as [|y l IH]; intros x.
  - split; [by apply elem_of_cons; left|].
    intros z Hz. apply list_elem_of_singleton in Hz as ->. cbn. lia.
  - cbn. destruct (IH (max_step id x y)) as [Hin Hub].
    assert (x ≤ max_step id x y ∧ y ≤ max_step id x y ∧
            (max_step id x y = x ∨ max_step id x y = y)) as (Hx & Hy & Hxy).
    { unfold max_step, id. destruct (Z.ltb_spec x y); cbn; lia. }
    split.
    + apply elem_of_cons in Hin as [Hin|Hin].
      * rewrite Hin. destruct Hxy as [-> | ->].
        -- apply elem_of_cons; by left.
        -- apply elem_of_cons; right. apply elem_of_cons; by left.
      * apply elem_of_cons; right. apply elem_of_cons; by right.
    + intros z Hz.
      assert (max_step id x y ≤ foldl (max_step id) (max_step id x y) l)
        as Hm by (apply Hub, elem_of_cons; by left).
      apply elem_of_cons in Hz as [->|Hz]; [lia|].
      apply elem_of_cons in Hz as [->|Hz]; [lia|].
      apply Hub, elem_of_cons. by right.
Qed.

Lemma py_max_is_max (l : list Z) (m : Z) :
  py_max l = Some m → is_max m l.
Proof.
  destruct l as [|x l]; [done|]. cbn. intros [= <-].
  apply foldl_max_step_id.
Qed.

Lemma py_max_is_Some (l : list Z) : l ≠ [] → is_Some (py_max l).
Proof. destruct l; [done|]. by eexists. Qed.

(** *** The prices of well-formed levels *)

Lemma mapM_item0_prices (levels : list (list Z)) (prices : list Z) :
  mapM item0 levels = Some prices → prices = level_prices levels.
Proof.
  rewrite mapM_Some. induction 1 as [|x p l k Hx _ IH]; [done|].
  unfold level_prices in *. cbn. rewrite Hx. cbn. by rewrite IH.
Qed.

Lemma mapM_item0_is_Some (levels : list (list Z)) :
  Forall (fun p => p ≠ []) levels → is_Some (mapM item0 levels).
Proof.
  intros Hall. apply mapM_is_Some.
  eapply Forall_impl; [exact Hall|]. intros [|x p] Hp; [done|].
  by eexists.
Qed.

Lemma level_prices_nil (levels : list (list Z)) :
  Forall (fun p => p ≠ []) levels → level_prices levels = [] → levels = [].
Proof.
  destruct 1 as [|x l Hx _]; [done|].
  destruct x; [done|]. discriminate.
Qed.

(** One side of [get_best_prices]: the maximum price of a non-empty list
    of levels that all have a price. *)
Lemma best_price_of_side (levels : list (list Z)) :
  Forall (fun p => p ≠ []) levels → levels ≠ [] →
  ∃ m, (prices ← mapM item0 levels; py_max prices) = Some m ∧
       is_max m (level_prices levels).
Proof.
  intros Hall Hne.
  destruct (mapM_item0_is_Some levels Hall) as [prices Hprices].
  pose proof (mapM_item0_prices _ _ Hprices) as ->.
  rewrite Hprices. cbn.
  destruct (py_max_is_Some (level_prices levels)) as [m Hm].
  { intros Hnil. by apply Hne, level_prices_nil. }
  exists m. split; [done|]. by apply py_max_is_max.
Qed.

(** The two sides of [get_best_prices]. *)
Lemma best_bid_of (yes_bids : list (list Z)) :
  Forall (fun p => p ≠ []) yes_bids →
  ∃ b, match yes_bids with
       | [] => Some 0
       | _ => prices ← mapM item0 yes_bids; py_max prices
       end = Some b ∧
       (yes_bids = [] → b = 0) ∧
       (yes_bids ≠ [] → is_max b (level_prices yes_bids)).
Proof.
  intros Hall. destruct yes_bids as [|y ys].
  - exists 0. by repeat split.
  - destruct (best_price_of_side (y :: ys)) as (m & Hm & Hmax);
      [done|done|].
    exists m. split; [exact Hm|]. split; [done|]. intros _. exact Hmax.
Qed.

Lemma best_ask_of (no_bids : list (list Z)) :
  Forall (fun p => p ≠ []) no_bids →
  ∃ a, match no_bids with
       | [] => Some 100
       | _ => prices ← mapM item0 no_bids;
              best_no_bid ← py_max prices;
              Some (100 - best_no_bid)
       end = Some a ∧
       (no_bids = [] → a = 100) ∧
       (no_bids ≠ [] →
        ∃ m, is_max m (level_prices no_bids) ∧ a = 100 - m).
Proof.
  intros Hall. destruct no_bids as [|n ns].
  - exists 100. by repeat split.
  - destruct (best_price_of_side (n :: ns)) as (m & Hm & Hmax);
      [done|done|].
    exists (100 - m). split; [|split; [done|intros _; by exists m]].
    destruct (mapM item0 (n :: ns)) as [prices|]; [|done].
    cbn in Hm |- *. by rewrite Hm.
Qed.

(** [get_best_prices] on a snapshot whose levels all have a price. *)
Lemma get_best_prices_well_formed (data : snapshot_data) :
  Forall (fun p => p ≠ []) (get_list (yes_levels data)) →
  Forall (fun p => p ≠ []) (get_list (no_levels data)) →
  ∃ best_bid best_ask,
    get_best_prices (Some data) = Some (best_bid, best_ask) ∧
    (get_list (yes_levels data) = [] → best_bid = 0) ∧
    (get_list (yes_levels data) ≠ [] →
     is_max best_bid (level_prices (get_list (yes_levels data)))) ∧
    (get_list (no_levels data) = [] → best_ask = 100) ∧
    (get_list (no_levels data) ≠ [] →
     ∃ best_no_bid,
       is_max best_no_bid (level_prices (get_list (no_levels data))) ∧
       best_ask = 100 - best_no_bid).
Proof.
  intros Hyes Hno.
  destruct (best_bid_of _ Hyes) as (b & Hb & Hb0 & Hbmax).
  destruct (best_ask_of _ Hno) as (a & Ha & Ha0 & Hamax).
  exists b, a. split; [|done].
  unfold get_best_prices.
  change (Some data ≫= ?f) with (f data). cbv beta zeta.
  rewrite Hb. change (Some b ≫= ?f) with (f b). cbv beta.
  rewrite Ha. reflexivity.
Qed.

(** C5: for a snapshot in which every level has a price (the snapshots
    that [get_best_prices] can parse), the function returns
    best bid = the maximum YES price (0 without YES levels) and
    best ask = 100 − the maximum NO price (100 without NO levels), and the
    mid price is (best bid + best ask) / 2; for YES=[[40,5],[45,3]] and
    NO=[[50,2],[58,10]] this gives 45, 42 and 43.5. *)
Theorem C5_get_best_prices :
  (∀ data : snapshot_data,
     Forall (fun p => p ≠ []) (get_list (yes_levels data)) →
     Forall (fun p => p ≠ []) (get_list (no_levels data)) →
     ∃ best_bid best_ask,
       get_best_prices (Some data) = Some (best_bid, best_ask) ∧
       (get_list (yes_levels data) = [] → best_bid = 0) ∧
       (get_list (yes_levels data) ≠ [] →
        is_max best_bid (level_prices (get_list (yes_levels data)))) ∧
       (get_list (no_levels data) = [] → best_ask = 100) ∧
       (get_list (no_levels data) ≠ [] →
        ∃ best_no_bid,
          is_max best_no_bid (level_prices (get_list (no_levels data))) ∧
          best_ask = 100 - best_no_bid) ∧
       mid_price_of (get_best_prices (Some data))
         = Some (inject_Z (best_bid + best_ask) / 2)%Q) ∧
  get_best_prices (Some example_snapshot) = Some (45, 42) ∧
  mid_price_of (get_best_prices (Some example_snapshot)) = Some (87 # 2) ∧
  (87 # 2 == 43.5)%Q.
Proof.
  split; [|by repeat split].
  intros data Hyes Hno.
  destruct (get_best_prices_well_formed data Hyes Hno)
    as (b & a & Hget & Hb0 & Hbmax & Ha0 & Hamax).
  exists b, a. rewrite Hget.
  split; [reflexivity|]. split; [exact Hb0|]. split; [exact Hbmax|].
  split; [exact Ha0|]. split; [exact Hamax|]. reflexivity.
Qed.

Lemma C5_get_best_prices_witness :
  ∃ best_bid best_ask,
    get_best_prices (Some example_snapshot) = Some (best_bid, best_ask) ∧
    is_max best_bid [40; 45] ∧
    (∃ best_no_bid, is_max best_no_bid [50; 58] ∧
                    best_ask = 100 - best_no_bid).
Proof.
  destruct (proj1 C5_get_best_prices example_snapshot)
    as (b & a & Hget & _ & Hb & _ & Ha & _).
  - repeat constructor; discriminate.
  - repeat constructor; discriminate.
  - exists b, a. split; [exact Hget|]. split.
    + apply Hb. discriminate.
    + apply Ha. discriminate.
Defined.

(** *** [max] with a key against [max] of the keys *)

Lemma max_step_keyed (ls : list (list Z)) (ps : list Z) :
  Forall2 (fun l q => item0 l = Some q) ls ps →
  ∀ (x : list Z) (p : Z),
    item0 x = Some p →
    item0 (foldl (max_step fst) (p, x) (zip ps ls)).2
      = Some (foldl (max_step id) p ps).
Proof.
  induction 1 as [|y q ls ps Hy _ IH]; intros x p Hx; [done|].
  cbn. unfold max_step at 2 4, id. cbn.
  destruct (p <? q); by apply IH.
Qed.

Lemma mapM_keyed (ls : list (list Z)) (ps : list Z) :
  Forall2 (fun l q => item0 l = Some q) ls ps →
  mapM (fun x => k ← item0 x; Some (k, x)) ls = Some (zip ps ls).
Proof.
  intros H. apply mapM_Some.
  induction H as [|y q ls ps Hy _ IH]; [constructor|].
  cbn. constructor; [|done]. by rewrite Hy.
Qed.

(** The level that [max(levels, key=lambda x: x[0])] returns has the
    price that [max([p[0] for p in levels])] returns. *)
Lemma py_max_key0_price (ls : list (list Z)) (best : list Z) (m : Z) :
  py_max_key0 ls = Some best →
  (prices ← mapM item0 ls; py_max prices) = Some m →
  item0 best = Some m.
Proof.
  intros Hbest Hm.
  destruct (mapM item0 ls) as [ps|] eqn:Hps; [|done]. cbn in Hm.
  apply mapM_Some in Hps.
  unfold py_max_key0 in Hbest. rewrite (mapM_keyed _ _ Hps) in Hbest.
  cbn in Hbest.
  destruct Hps as [|x p ls ps Hx Hps]; [done|].
  cbn in Hbest, Hm. injection Hbest as <-. injection Hm as <-.
  by apply max_step_keyed.
Qed.

(** *** Both extractors return on well-formed snapshots *)

Lemma foldl_max_step_elem {A} (key : A → Z) (l : list A) (x : A) :
  foldl (max_step key) x l ∈ x :: l.
Proof.
  revert x. induction l as [|y l IH]; intros x; cbn.
  - apply list_elem_of_here.
  - specialize (IH (max_step key x y)).
    apply elem_of_cons in IH as [IH|IH].
    + rewrite IH. unfold max_step. destruct (key x <? key y).
      * apply list_elem_of_further, list_elem_of_here.
      * apply list_elem_of_here.
    + by do 2 apply list_elem_of_further.
Qed.

Lemma py_max_key0_elem (ls : list (list Z)) (best : list Z) :
  py_max_key0 ls = Some best → best ∈ ls.
Proof.
  unfold py_max_key0. intros Hbest.
  destruct (mapM _ ls) as [keyed|] eqn:Hkeyed; [|done]. cbn in Hbest.
  destruct keyed as [|kx rest]; [done|]. injection Hbest as <-.
  apply mapM_Some in Hkeyed.
  assert (∀ ky, ky ∈ kx :: rest → ky.2 ∈ ls) as Hall.
  { clear -Hkeyed. induction Hkeyed as [|x ky ls keyed Hx _ IH].
    - intros ky Hky. by apply elem_of_nil in Hky.
    - intros ky' Hky'. apply elem_of_cons in Hky' as [->|Hky'].
      + destruct (item0 x); cbn in Hx; [|done]. injection Hx as <-.
        apply list_elem_of_here.
      + by apply list_elem_of_further, IH. }
  apply Hall, foldl_max_step_elem.
Qed.

Lemma py_max_key0_is_Some (ls : list (list Z)) :
  ls ≠ [] → Forall (fun p => p ≠ []) ls → is_Some (py_max_key0 ls).
Proof.
  intros Hne Hall.
  destruct (mapM_item0_is_Some ls Hall) as [ps Hps].
  apply mapM_Some in Hps. unfold py_max_key0.
  rewrite (mapM_keyed _ _ Hps). cbn.
  destruct Hps; [done|]. by eexists.
Qed.

(** With a price and a size in every level and levels on both sides,
    neither function takes its [except] branch. *)
Lemma extractors_defined (data : snapshot_data) :
  get_list (yes_levels data) ≠ [] →
  get_list (no_levels data) ≠ [] →
  Forall (fun p => (2 ≤ length p)%nat) (get_list (yes_levels data)) →
  Forall (fun p => (2 ≤ length p)%nat) (get_list (no_levels data)) →
  is_Some (get_best_prices (Some data)) ∧
  ∃ bid_price bid_size ask_price ask_size,
    parse_snapshot (Some data)
      = L1 (Some bid_price) (Some bid_size) (Some ask_price) (Some ask_size).
Proof.
  intros Hy Hn Hyes Hno.
  assert (∀ ls : list (list Z),
            Forall (fun p => (2 ≤ length p)%nat) ls →
            Forall (fun p => p ≠ []) ls) as Hwf.
  { intros ls Hls. eapply Forall_impl; [exact Hls|].
    intros [|x p]; cbn; [lia|done]. }
  assert (∀ ls : list (list Z),
            ls ≠ [] → Forall (fun p => (2 ≤ length p)%nat) ls →
            ∃ best p0 p1, py_max_key0 ls = Some best ∧
                          item0 best = Some p0 ∧ item1 best = Some p1)
    as Hbest.
  { intros ls Hne Hall.
    destruct (py_max_key0_is_Some ls Hne (Hwf _ Hall)) as [best Hbest].
    pose proof (py_max_key0_elem _ _ Hbest) as Hin.
    rewrite Forall_forall in Hall. specialize (Hall best Hin).
    destruct best as [|p0 [|p1 best]]; cbn in Hall; [lia|lia|].
    by exists (p0 :: p1 :: best), p0, p1. }
  split.
  - destruct (get_best_prices_well_formed data (Hwf _ Hyes) (Hwf _ Hno))
      as (b & a & -> & _). by eexists.
  - destruct (Hbest _ Hy Hyes) as (by_ & y0 & y1 & Hby & Hy0 & Hy1).
    destruct (Hbest _ Hn Hno) as (bn & n0 & n1 & Hbn & Hn0 & Hn1).
    exists y0, y1, (100 - n0), n1.
    unfold parse_snapshot, parse_snapshot_try.
    change (Some data ≫= ?f) with (f data). cbv beta zeta.
    destruct (get_list (yes_levels data)) as [|y ys]; [done|].
    destruct (get_list (no_levels data)) as [|n ns]; [done|].
    rewrite Hby, Hbn. cbn. rewrite Hy0, Hn0. cbn. rewrite Hy1, Hn1. done.
Qed.

(** Whenever both extractors return a best bid price and a best ask
    price, the prices are the same. *)
Lemma extractors_same_prices (snapshot_json : snapshot_json)
    (best_bid best_ask bid_price ask_price : Z) :
  get_best_prices snapshot_json = Some (best_bid, best_ask) →
  best_bid_price (parse_snapshot snapshot_json) = Some bid_price →
  best_ask_price (parse_snapshot snapshot_json) = Some ask_price →
  bid_price = best_bid ∧ ask_price = best_ask.
Proof.
  intros Hget Hbid Hask.
  destruct snapshot_json as [data|]; [|done].
  unfold parse_snapshot in Hbid, Hask.
  destruct (parse_snapshot_try (Some data)) as [r|] eqn:Htry; [|done].
  unfold get_best_prices in Hget. unfold parse_snapshot_try in Htry.
  cbn in Hget, Htry.
  set (yes_bids := get_list (yes_levels data)) in *.
  set (no_bids := get_list (no_levels data)) in *.
  destruct (match yes_bids with
            | [] => Some 0
            | _ => prices ← mapM item0 yes_bids; py_max prices
            end) as [b|] eqn:Hb; [|done].
  cbn in Hget.
  destruct (match no_bids with
            | [] => Some 100
            | _ => prices ← mapM item0 no_bids;
                   best_no_bid ← py_max prices;
                   Some (100 - best_no_bid)
            end) as [a|] eqn:Ha; [|done].
  cbn in Hget. injection Hget as -> ->.
  destruct (match yes_bids with
            | [] => Some (None, None)
            | _ => best_yes ← py_max_key0 yes_bids;
                   best_bid_price ← item0 best_yes;
                   best_bid_size ← item1 best_yes;
                   Some (Some best_bid_price, Some best_bid_size)
            end) as [bid|] eqn:Hb'; [|done].
  cbn in Htry.
  destruct (match no_bids with
            | [] => Some (None, None)
            | _ => best_no ← py_max_key0 no_bids;
                   best_no_price ← item0 best_no;
                   best_no_size ← item1 best_no;
                   Some (Some (100 - best_no_price), Some best_no_size)
            end) as [ask|] eqn:Ha'; [|done].
  cbn in Htry. injection Htry as <-. cbn in Hbid, Hask.
  split.
  - destruct yes_bids as [|y ys]; [by simplify_eq/=|].
    destruct (py_max_key0 (y :: ys)) as [best|] eqn:Hbest; [|done].
    pose proof (py_max_key0_price _ _ _ Hbest Hb) as Hprice.
    cbn in Hb'. rewrite Hprice in Hb'. cbn in Hb'.
    destruct (item1 best); cbn in Hb'; by simplify_eq/=.
  - destruct no_bids as [|n ns]; [by simplify_eq/=|].
    destruct (py_max_key0 (n :: ns)) as [best|] eqn:Hbest; [|done].
    destruct (prices ← mapM item0 (n :: ns); py_max prices) as [m|] eqn:Hm.
    + pose proof (py_max_key0_price _ _ _ Hbest Hm) as Hprice.
      cbn in Ha'. rewrite Hprice in Ha'. cbn in Ha'.
      destruct (mapM item0 (n :: ns)) as [prices|]; [|done].
      cbn in Ha, Hm. rewrite Hm in Ha. cbn in Ha.
      destruct (item1 best); cbn in Ha'; by simplify_eq/=.
    + destruct (mapM item0 (n :: ns)) as [prices|]; [|done].
      cbn in Ha, Hm. by rewrite Hm in Ha.
Qed.

(** What [get_best_prices] returns for a side that has levels is the
    maximum of the prices of that side. *)
Lemma get_best_prices_max (data : snapshot_data) (best_bid best_ask : Z) :
  get_best_prices (Some data) = Some (best_bid, best_ask) →
  (get_list (yes_levels data) ≠ [] →
   is_max best_bid (level_prices (get_list (yes_levels data)))) ∧
  (get_list (no_levels data) ≠ [] →
   ∃ best_no_bid,
     is_max best_no_bid (level_prices (get_list (no_levels data))) ∧
     best_ask = 100 - best_no_bid).
Proof.
  unfold get_best_prices.
  change (Some data ≫= ?f) with (f data). cbv beta zeta.
  set (yes_bids := get_list (yes_levels data)).
  set (no_bids := get_list (no_levels data)).
  destruct (match yes_bids with
            | [] => Some 0
            | _ => prices ← mapM item0 yes_bids; py_max prices
            end) as [b|] eqn:Hb; [|done].
  change (Some b ≫= ?f) with (f b). cbv beta.
  destruct (match no_bids with
            | [] => Some 100
            | _ => prices ← mapM item0 no_bids;
                   best_no_bid ← py_max prices;
                   Some (100 - best_no_bid)
            end) as [a|] eqn:Ha; [|done].
  cbn. intros [= <- <-]. split.
  - intros Hne. destruct yes_bids as [|y ys]; [done|].
    destruct (mapM item0 (y :: ys)) as [prices|] eqn:Hprices; [|done].
    cbn in Hb. rewrite <- (mapM_item0_prices _ _ Hprices).
    by apply py_max_is_max.
  - intros Hne. destruct no_bids as [|n ns]; [done|].
    destruct (mapM item0 (n :: ns)) as [prices|] eqn:Hprices; [|done].
    cbn in Ha.
    destruct (py_max prices) as [m|] eqn:Hm; [|done].
    cbn in Ha. injection Ha as <-. exists m. split; [|done].
    rewrite <- (mapM_item0_prices _ _ Hprices). by apply py_max_is_max.
Qed.

(** [parse_snapshot] has a best bid price only when there are YES
    levels, and a best ask price only when there are NO levels. *)
Lemma parse_snapshot_sides (data : snapshot_data) (bid_price ask_price : Z) :
  best_bid_price (parse_snapshot (Some data)) = Some bid_price →
  best_ask_price (parse_snapshot (Some data)) = Some ask_price →
  get_list (yes_levels data) ≠ [] ∧ get_list (no_levels data) ≠ [].
Proof.
  unfold parse_snapshot, parse_snapshot_try.
  change (Some data ≫= ?f) with (f data). cbv beta zeta.
  destruct (get_list (yes_levels data)) as [|y ys];
    destruct (get_list (no_levels data)) as [|n ns]; try done.
  - change (Some (None, None) ≫= ?f) with (f (@None Z, @None Z)).
    cbv beta.
    destruct (py_max_key0 (n :: ns) ≫= _) as [ask|]; done.
  - destruct (py_max_key0 (y :: ys) ≫= _) as [bid|]; [|done].
    change (Some bid ≫= ?f) with (f bid). cbv beta.
    change (Some (None, None) ≫= ?f) with (f (@None Z, @None Z)).
    done.
Qed.

(** C10: for a snapshot whose YES array and NO array are both non-empty
    and in which every level has a price and a size, [get_best_prices]
    and [parse_snapshot] both return, with the same best bid price, which
    is the maximum YES price, and the same best ask price, which is 100
    minus the maximum NO price; and whenever the two functions return a
    best bid price and a best ask price for a snapshot at all, these are
    the same and are that maximum and 100 minus that maximum. *)
Theorem C10_extractors_agree (data : snapshot_data) :
  (get_list (yes_levels data) ≠ [] →
   get_list (no_levels data) ≠ [] →
   Forall (fun p => (2 ≤ length p)%nat) (get_list (yes_levels data)) →
   Forall (fun p => (2 ≤ length p)%nat) (get_list (no_levels data)) →
   ∃ bid ask bid_size ask_size best_no_bid,
     get_best_prices (Some data) = Some (bid, ask) ∧
     parse_snapshot (Some data)
       = L1 (Some bid) (Some bid_size) (Some ask) (Some ask_size) ∧
     is_max bid (level_prices (get_list (yes_levels data))) ∧
     is_max best_no_bid (level_prices (get_list (no_levels data))) ∧
     ask = 100 - best_no_bid) ∧
  (∀ best_bid best_ask bid_price ask_price : Z,
     get_best_prices (Some data) = Some (best_bid, best_ask) →
     best_bid_price (parse_snapshot (Some data)) = Some bid_price →
     best_ask_price (parse_snapshot (Some data)) = Some ask_price →
     bid_price = best_bid ∧ ask_price = best_ask ∧
     is_max best_bid (level_prices (get_list (yes_levels data))) ∧
     ∃ best_no_bid,
       is_max best_no_bid (level_prices (get_list (no_levels data))) ∧
       best_ask = 100 - best_no_bid).
Proof.
  assert (∀ best_bid best_ask bid_price ask_price : Z,
            get_best_prices (Some data) = Some (best_bid, best_ask) →
            best_bid_price (parse_snapshot (Some data)) = Some bid_price →
            best_ask_price (parse_snapshot (Some data)) = Some ask_price →
            bid_price = best_bid ∧ ask_price = best_ask ∧
            is_max best_bid (level_prices (get_list (yes_levels data))) ∧
            ∃ best_no_bid,
              is_max best_no_bid
                     (level_prices (get_list (no_levels data))) ∧
              best_ask = 100 - best_no_bid) as Hagree.
  { intros best_bid best_ask bid_price ask_price Hget Hbid Hask.
    destruct (extractors_same_prices _ _ _ _ _ Hget Hbid Hask) as [-> ->].
    destruct (parse_snapshot_sides _ _ _ Hbid Hask) as [Hy Hn].
    destruct (get_best_prices_max _ _ _ Hget) as [Hmax_yes Hmax_no].
    split; [done|]. split; [done|]. split; [by apply Hmax_yes|].
    by apply Hmax_no. }
  split; [|exact Hagree].
  intros Hy Hn Hyes Hno.
  destruct (extractors_defined data Hy Hn Hyes Hno)
    as [[[bid ask] Hget] (bid_price & bid_size & ask_price & ask_size & Hparse)].
  destruct (Hagree bid ask bid_price ask_price Hget) as
    (-> & -> & Hmax_yes & best_no_bid & Hmax_no & Hask).
  { by rewrite Hparse. }
  { by rewrite Hparse. }
  exists bid, ask, bid_size, ask_size, best_no_bid.
  by rewrite Hparse.
Qed.

Lemma C10_extractors_agree_witness :
  ∃ bid ask bid_size ask_size best_no_bid,
    get_best_prices (Some example_snapshot) = Some (bid, ask) ∧
    parse_snapshot (Some example_snapshot)
      = L1 (Some bid) (Some bid_size) (Some ask) (Some ask_size) ∧
    is_max bid [40; 45] ∧
    is_max best_no_bid [50; 58] ∧
    ask = 100 - best_no_bid.
Proof.
  apply (proj1 (C10_extractors_agree example_snapshot)).
  - discriminate.
  - discriminate.
  - repeat constructor.
  - repeat constructor.
Defined.

End BestPriceProofs.

(* ===================================================================== *)
(** * Properties of the signed volume                                     *)
(* ===================================================================== *)

Module ImbalanceProofs.
Import Py Imbalance.

(** The taker side that [get_trade_details] hands on: the lower-cased
    string, or the empty string when the field is missing or not a
    string. *)
Lemma get_trade_details_side (data : trade_data) :
  (get_trade_details (Some data)).2 =
    match taker_side data with
    | Some (JString s) => lower s
    | _ => EmptyString
    end.
Proof. unfold get_trade_details. by destruct (taker_side data) as [[]|]. Qed.

Lemma get_trade_details_count (data : trade_data) (s : string) :
  taker_side data = Some (JString s) →
  (get_trade_details (Some data)).1 = default 0 (count data).
Proof. intros Hs. unfold get_trade_details. by rewrite Hs. Qed.

(** *** The dtype of the count column *)

Lemma fits_int64_spec (c : Z) :
  fits_int64 c = true ↔ - 2 ^ 63 ≤ c < 2 ^ 63.
Proof. unfold fits_int64. rewrite andb_true_iff. lia. Qed.

Lemma infer_dtype_int64 (values : list Z) :
  Forall (fun c => - 2 ^ 63 < c < 2 ^ 63) values →
  infer_dtype values = int64.
Proof.
  intros Hall. unfold infer_dtype.
  assert (forallb fits_int64 values = true) as ->; [|done].
  induction Hall as [|c values Hc _ IH]; [done|].
  cbn [forallb]. rewrite IH, andb_true_r.
  apply fits_int64_spec. lia.
Qed.

(** Unary minus on int64 is exact except at the least value. *)
Lemma negative_int64 (x : Z) :
  - 2 ^ 63 < x < 2 ^ 63 → negative int64 x = - x.
Proof.
  intros Hx. unfold negative.
  rewrite Z.mod_small by lia. lia.
Qed.

(** *** The claim *)

(** C7 (counterexample): a trade of count 7 whose taker side is written
    "YES" gets signed volume +7, although its taker side is neither "yes"
    nor "no"; and a NO trade of count 2^63 gets signed volume +2^63, not
    −2^63, because the column is a uint64 column, on which the minus wraps
    around. *)
Lemma C7_uppercase_side_and_large_count :
  ("YES"%string ≠ "yes"%string ∧ "YES"%string ≠ "no"%string ∧
   signed_volumes (one_trade 7 "YES") false = [7]) ∧
  signed_volumes (one_trade (2 ^ 63) "no") false = [2 ^ 63].
Proof. split; [by repeat split|]. vm_compute. reflexivity. Qed.

(** C7 (amended): in a frame in which every count lies strictly between
    −2^63 and 2^63, [process_trades] returns one row per trade, and with
    the taker side compared after lower-casing, the signed volume of a
    trade is +count when the taker side is "yes", −count when it is "no"
    and 0 for any other, missing or non-string taker side (and for a
    record that does not parse), negated when [is_inverse] is true; a YES
    trade of count 7 gives +7, a NO trade of count 7 gives −7, and an
    inverted NO trade of count 7 gives +7. *)
Theorem C7_signed_volume :
  (∀ (trades_df : list trade_row) (is_inverse : bool),
     Forall (fun c => - 2 ^ 63 < c < 2 ^ 63) (count_column trades_df) →
     length (process_trades trades_df is_inverse) = length trades_df ∧
     ∀ (i : nat) (r : trade_row),
       trades_df !! i = Some r →
       ∃ p, process_trades trades_df is_inverse !! i = Some p ∧
            p_timestamp p = trade_timestamp r ∧
            let sign v := if is_inverse then - v else v in
            (∀ data s,
               trade_json_text r = Some data →
               taker_side data = Some (JString s) →
               let count := default 0 (count data) in
               (lower s = "yes"%string → p_signed_volume p = sign count) ∧
               (lower s = "no"%string →
                p_signed_volume p = sign (- count)) ∧
               (lower s ≠ "yes"%string → lower s ≠ "no"%string →
                p_signed_volume p = 0)) ∧
            ((∀ data s, trade_json_text r = Some data →
                        taker_side data ≠ Some (JString s)) →
             p_signed_volume p = 0)) ∧
  signed_volumes (one_trade 7 "yes") false = [7] ∧
  signed_volumes (one_trade 7 "no") false = [-7] ∧
  signed_volumes (one_trade 7 "no") true = [7].
Proof.
  split; [|by repeat split].
  intros trades_df is_inverse Hbound. unfold process_trades. cbv zeta.
  rewrite (infer_dtype_int64 _ Hbound).
  split; [by rewrite length_fmap|].
  intros i r Hi.
  exists (process_trade int64 is_inverse r).
  split; [by rewrite list_lookup_fmap, Hi|]. split; [done|].
  assert (- 2 ^ 63 < (get_trade_details (trade_json_text r)).1 < 2 ^ 63)
    as Hc.
  { rewrite Forall_forall in Hbound. apply Hbound.
    unfold count_column. apply list_elem_of_fmap. exists r.
    split; [done|]. by eapply list_elem_of_lookup_2. }
  cbv zeta. unfold process_trade. cbn [p_signed_volume].
  split.
  - intros data s Hdata Hs. rewrite Hdata in Hc |- *.
    rewrite get_trade_details_side, (get_trade_details_count _ s Hs), Hs.
    rewrite (get_trade_details_count _ s Hs) in Hc.
    unfold signed_volume_of.
    split; [|split].
    + intros ->. rewrite decide_True by done.
      destruct is_inverse; [|done]. by apply negative_int64.
    + intros ->. rewrite decide_False by done. rewrite decide_True by done.
      rewrite (negative_int64 _ Hc).
      destruct is_inverse; [|done]. apply negative_int64. lia.
    + intros H1 H2. rewrite !decide_False by done.
      by destruct is_inverse.
  - intros Hnot.
    assert ((get_trade_details (trade_json_text r)).2 = EmptyString) as ->.
    { destruct (trade_json_text r) as [data|] eqn:Hdata; [|done].
      rewrite get_trade_details_side.
      destruct (taker_side data) as [[s| |]|] eqn:Hs; try done.
      by destruct (Hnot data s). }
    unfold signed_volume_of. rewrite !decide_False by done.
    by destruct is_inverse.
Qed.

Lemma C7_signed_volume_witness :
  ∃ p, process_trades (one_trade 7 "No") true !! 0%nat = Some p ∧
       p_signed_volume p = 7.
Proof.
  assert (Forall (fun c => - 2 ^ 63 < c < 2 ^ 63)
            (count_column (one_trade 7 "No"))) as Hbound.
  { repeat constructor; vm_compute; reflexivity. }
  destruct (proj1 C7_signed_volume (one_trade 7 "No") true Hbound)
    as [_ Hrows].
  destruct (Hrows 0%nat
              (TradeRow 0
                 (Some (TradeData None None (Some 7)
                          (Some (JString "No"))))) eq_refl)
    as (p & Hp & _ & Hside & _).
  exists p. split; [exact Hp|].
  destruct (Hside (TradeData None None (Some 7) (Some (JString "No"))) "No"
              eq_refl eq_refl) as (_ & Hno & _).
  apply Hno. reflexivity.
Defined.

End ImbalanceProofs.

(* ===================================================================== *)
(** * Further properties of the order book state engine                   *)
(* ===================================================================== *)

Module OrderbookMore.
Import Orderbook OrderbookLog OrderbookProofs.

(** *** What a snapshot message leaves in a map *)

Lemma store_levels_lookup (l : list (Z * Z)) (d : gmap Z Z) (p : Z) :
  store_levels d l !! p =
    match last (filter (fun ps => ps.1 = p) l) with
    | Some ps => Some ps.2
    | None => d !! p
    end.
Proof.
  induction l as [|[q s] l IH] using rev_ind; [done|].
  rewrite store_levels_snoc, filter_app.
  change ((q, s).1) with q. change ((q, s).2) with s.
  destruct (decide (q = p)) as [->|Hne].
  - rewrite lookup_insert_eq, filter_cons_True by done.
    by rewrite filter_nil, last_snoc.
  - rewrite lookup_insert_ne, filter_cons_False by done.
    by rewrite filter_nil, app_nil_r.
Qed.

(** After [initialize_orderbook_from_snapshot], the size stored at a
    price is the size of the last pair that the message lists for that
    price, and the size held before the call when the message lists no
    pair for it. *)
Theorem initialize_levels (now : Z) (db : OrderbookDatabase) (t : string)
    (s : snapshot) (p : Z) :
  let before := book_of (orderbook_state db) t in
  let after :=
    book_of (orderbook_state (initialize_orderbook_from_snapshot now db t s))
            t in
  yes after !! p =
    match last (filter (fun ps => ps.1 = p) (get_levels (snap_yes s))) with
    | Some ps => Some ps.2
    | None => yes before !! p
    end ∧
  no after !! p =
    match last (filter (fun ps => ps.1 = p) (get_levels (snap_no s))) with
    | Some ps => Some ps.2
    | None => no before !! p
    end.
Proof.
  cbn zeta. unfold initialize_orderbook_from_snapshot. cbn.
  rewrite book_of_insert. cbn. by rewrite !store_levels_lookup.
Qed.

(** *** The snapshot persisted by a delta *)

#[local] Instance price_le_transitive : Transitive price_le.
Proof. intros a b c. unfold price_le. lia. Qed.
#[local] Instance price_le_total : Total price_le.
Proof. intros a b. unfold price_le. lia. Qed.

Lemma sorted_nodup_ascending (l : list (Z * Z)) :
  StronglySorted price_le l → NoDup l.*1 → ascending l.
Proof.
  induction 1 as [|a l Hs IH Hall]; intros Hnd; [constructor|].
  cbn in Hnd. apply NoDup_cons in Hnd as [Hnot Hnd].
  constructor; [by apply IH|].
  apply Forall_forall. intros b Hb.
  rewrite Forall_forall in Hall. specialize (Hall b Hb).
  unfold price_le in Hall.
  assert (a.1 ≠ b.1); [|lia].
  intros Heq. apply Hnot. rewrite Heq. by apply list_elem_of_fmap_2.
Qed.

Lemma sorted_items_ascending (m : gmap Z Z) : ascending (sorted_items m).
Proof.
  apply sorted_nodup_ascending.
  - apply StronglySorted_merge_sort; apply _.
  - unfold sorted_items. rewrite merge_sort_Permutation.
    apply NoDup_fst_map_to_list.
Qed.

Lemma elem_of_sorted_items (m : gmap Z Z) (p s : Z) :
  (p, s) ∈ sorted_items m ↔ m !! p = Some s.
Proof.
  unfold sorted_items. rewrite merge_sort_Permutation.
  apply elem_of_map_to_list.
Qed.

(** The row that [update_orderbook_state] persists is for the ticker of
    the delta, carries the timestamp of the delta (the clock reading when
    it has none), and lists on each side exactly the levels of the book
    after the update, in strictly ascending order of price. *)
Theorem update_persists_sorted_book (now : Z) (db db' : OrderbookDatabase)
    (t : string) (msg : delta_msg) :
  update_orderbook_state now db t msg = Some db' →
  ∃ ys ns,
    orderbook_snapshots db' =
      orderbook_snapshots db ++
        [StoredRow (default now (ts msg)) t (Snapshot (Some ys) (Some ns))] ∧
    ascending ys ∧ ascending ns ∧
    (∀ p s, (p, s) ∈ ys ↔
            yes (book_of (orderbook_state db') t) !! p = Some s) ∧
    (∀ p s, (p, s) ∈ ns ↔
            no (book_of (orderbook_state db') t) !! p = Some s).
Proof.
  unfold update_orderbook_state.
  destruct (get_side _ _) as [m|]; [|done]. intros [= <-]. cbn.
  rewrite book_of_insert.
  eexists _, _. split; [reflexivity|].
  split; [apply sorted_items_ascending|].
  split; [apply sorted_items_ascending|].
  split; intros p s; apply elem_of_sorted_items.
Qed.

Lemma update_persists_sorted_book_witness :
  ∃ ys ns,
    orderbook_snapshots
      (default fresh_database
         (update_orderbook_state 9 after_two_snapshots "T"
            (DeltaMsg 42 7 "yes" (Some 300)))) =
      orderbook_snapshots after_two_snapshots ++
        [StoredRow 300 "T" (Snapshot (Some ys) (Some ns))] ∧
    ascending ys ∧ ascending ns ∧
    ys = [(40, 5); (42, 7); (45, 3)].
Proof.
  destruct (update_persists_sorted_book 9 after_two_snapshots
              (default fresh_database
                 (update_orderbook_state 9 after_two_snapshots "T"
                    (DeltaMsg 42 7 "yes" (Some 300))))
              "T" (DeltaMsg 42 7 "yes" (Some 300)))
    as (ys & ns & Hrows & Hys & Hns & _).
  - vm_compute. reflexivity.
  - exists ys, ns. split; [exact Hrows|]. split; [exact Hys|].
    split; [exact Hns|].
    vm_compute in Hrows. by simplify_eq.
Defined.

(** *** Reloading a persisted snapshot *)

Lemma store_sorted_items (m : gmap Z Z) :
  store_levels ∅ (sorted_items m) = m.
Proof.
  apply map_eq. intros p. rewrite store_levels_lookup.
  destruct (last _) as [[q s]|] eqn:Hlast.
  - apply last_Some_elem_of, list_elem_of_filter in Hlast as [Hq Hin].
    cbn in Hq. subst q. apply elem_of_sorted_items in Hin. by rewrite Hin.
  - rewrite lookup_empty. apply last_None in Hlast.
    destruct (m !! p) as [s|] eqn:Hp; [|done].
    apply elem_of_sorted_items in Hp.
    by destruct (filter_nil_not_elem_of _ _ (p, s) Hlast eq_refl).
Qed.

(** A snapshot message made of the levels that a delta persisted for a
    book, received for a ticker without prior state, rebuilds exactly
    that book. *)
Theorem reload_persisted_snapshot (now : Z) (db : OrderbookDatabase)
    (t : string) (b : book) :
  orderbook_state db !! t = None →
  book_of
    (orderbook_state
       (initialize_orderbook_from_snapshot now db t (snapshot_of b))) t = b.
Proof.
  intros Hnone. unfold initialize_orderbook_from_snapshot. cbn.
  rewrite book_of_insert. unfold book_of. rewrite Hnone. cbn.
  rewrite !store_sorted_items. by destruct b.
Qed.

Lemma reload_persisted_snapshot_witness :
  book_of
    (orderbook_state
       (initialize_orderbook_from_snapshot 7 fresh_database "T"
          (snapshot_of (book_of (orderbook_state after_two_snapshots) "T"))))
    "T"
  = book_of (orderbook_state after_two_snapshots) "T".
Proof.
  apply (reload_persisted_snapshot 7 fresh_database "T").
  reflexivity.
Defined.

(** *** How deltas compose *)

Lemma apply_delta_compose (m : gmap Z Z) (p d1 d2 : Z) :
  0 < default 0 (m !! p) + d1 →
  apply_delta (apply_delta m p d1) p d2 = apply_delta m p (d1 + d2).
Proof.
  intros Hpos. apply map_eq. intros q.
  rewrite !apply_delta_lookup.
  destruct (decide (q = p)) as [->|]; [|done].
  rewrite (decide_True (P := p = p)) by done.
  rewrite (decide_False (P := default 0 (m !! p) + d1 ≤ 0)) by lia. cbn.
  replace (default 0 (m !! p) + d1 + d2)
    with (default 0 (m !! p) + (d1 + d2)) by lia.
  done.
Qed.

Lemma apply_delta_commute (m : gmap Z Z) (p q d e : Z) :
  p ≠ q →
  apply_delta (apply_delta m p d) q e = apply_delta (apply_delta m q e) p d.
Proof.
  intros Hne. apply map_eq. intros r.
  rewrite !apply_delta_lookup.
  destruct (decide (r = q)) as [Hq|Hq]; destruct (decide (r = p)) as [Hp|Hp];
    try done.
  - congruence.
  - subst r. rewrite (decide_False (P := q = p)) by done. done.
  - subst r. rewrite (decide_False (P := p = q)) by done. done.
Qed.

(** The in-memory state that a delta with a valid side leaves. *)
Lemma update_state (now : Z) (db : OrderbookDatabase) (t : string)
    (msg : delta_msg) (m : gmap Z Z) :
  get_side (book_of (orderbook_state db) t) (side msg) = Some m →
  ∃ db', update_orderbook_state now db t msg = Some db' ∧
         orderbook_state db' =
           <[t := set_side (book_of (orderbook_state db) t) (side msg)
                    (apply_delta m (price msg) (delta msg))]>
             (orderbook_state db).
Proof.
  intros Hm. unfold update_orderbook_state. rewrite Hm.
  eexists. split; reflexivity.
Qed.

Lemma set_set_side (b : book) (s : string) (m1 m2 : gmap Z Z) :
  set_side (set_side b s m1) s m2 = set_side b s m2.
Proof. unfold set_side. by destruct (decide (s = "yes"%string)). Qed.

(** Two deltas for the same ticker, side and price, of which the first
    leaves a positive size, leave the same book as one delta with the sum
    of the two size changes. *)
Theorem deltas_add_up (now1 now2 now3 : Z) (db : OrderbookDatabase)
    (t s : string) (p d1 d2 : Z) (ts1 ts2 ts3 : option Z) (m : gmap Z Z) :
  get_side (book_of (orderbook_state db) t) s = Some m →
  0 < default 0 (m !! p) + d1 →
  ∃ db1 db2 db12,
    update_orderbook_state now1 db t (DeltaMsg p d1 s ts1) = Some db1 ∧
    update_orderbook_state now2 db1 t (DeltaMsg p d2 s ts2) = Some db2 ∧
    update_orderbook_state now3 db t (DeltaMsg p (d1 + d2) s ts3)
      = Some db12 ∧
    orderbook_state db2 = orderbook_state db12.
Proof.
  intros Hm Hpos.
  destruct (update_state now1 db t (DeltaMsg p d1 s ts1) m Hm)
    as (db1 & H1 & Hst1).
  destruct (update_state now3 db t (DeltaMsg p (d1 + d2) s ts3) m Hm)
    as (db12 & H12 & Hst12).
  cbn in Hst1, Hst12.
  destruct (update_state now2 db1 t (DeltaMsg p d2 s ts2)
              (apply_delta m p d1)) as (db2 & H2 & Hst2).
  { rewrite Hst1, book_of_insert. by eapply get_set_side. }
  cbn in Hst2. exists db1, db2, db12. repeat split; try done.
  rewrite Hst2, Hst12, Hst1, book_of_insert, insert_insert_eq.
  by rewrite set_set_side, apply_delta_compose.
Qed.

Lemma deltas_add_up_witness :
  ∃ db1 db2 db12,
    update_orderbook_state 1 after_two_snapshots "T"
      (DeltaMsg 40 (-2) "yes" None) = Some db1 ∧
    update_orderbook_state 2 db1 "T" (DeltaMsg 40 (-3) "yes" None)
      = Some db2 ∧
    update_orderbook_state 3 after_two_snapshots "T"
      (DeltaMsg 40 (-2 + -3) "yes" None) = Some db12 ∧
    orderbook_state db2 = orderbook_state db12.
Proof.
  apply (deltas_add_up 1 2 3 after_two_snapshots "T" "yes" 40 (-2) (-3)
           None None None
           (yes (book_of (orderbook_state after_two_snapshots) "T"))).
  - reflexivity.
  - vm_compute. reflexivity.
Defined.

(** A delta that brings a level to zero or below removes it and forgets
    the deficit: after a second delta at that price the level is absent
    when the second size change is [≤ 0] and holds exactly the second
    size change otherwise, whatever the first was. *)
Theorem delta_deficit_is_forgotten (now1 now2 : Z) (db : OrderbookDatabase)
    (t s : string) (p d1 d2 : Z) (ts1 ts2 : option Z) (m : gmap Z Z) :
  get_side (book_of (orderbook_state db) t) s = Some m →
  default 0 (m !! p) + d1 ≤ 0 →
  ∃ db1 db2 after,
    update_orderbook_state now1 db t (DeltaMsg p d1 s ts1) = Some db1 ∧
    update_orderbook_state now2 db1 t (DeltaMsg p d2 s ts2) = Some db2 ∧
    get_side (book_of (orderbook_state db2) t) s = Some after ∧
    after !! p = (if decide (d2 ≤ 0) then None else Some d2).
Proof.
  intros Hm Hneg.
  destruct (update_state now1 db t (DeltaMsg p d1 s ts1) m Hm)
    as (db1 & H1 & Hst1).
  cbn in Hst1.
  destruct (update_state now2 db1 t (DeltaMsg p d2 s ts2)
              (apply_delta m p d1)) as (db2 & H2 & Hst2).
  { rewrite Hst1, book_of_insert. by eapply get_set_side. }
  cbn in Hst2.
  exists db1, db2, (apply_delta (apply_delta m p d1) p d2).
  split; [done|]. split; [done|]. split.
  - rewrite Hst2, book_of_insert. eapply get_set_side.
    rewrite Hst1, book_of_insert. by eapply get_set_side.
  - rewrite !apply_delta_lookup.
    rewrite (decide_True (P := p = p)) by done.
    rewrite (decide_True (P := default 0 (m !! p) + d1 ≤ 0)) by done.
    cbn. repeat case_decide; try lia; done.
Qed.

Lemma delta_deficit_is_forgotten_witness :
  ∃ db1 db2 after,
    update_orderbook_state 1 after_two_snapshots "T"
      (DeltaMsg 40 (-9) "yes" None) = Some db1 ∧
    update_orderbook_state 2 db1 "T" (DeltaMsg 40 4 "yes" None)
      = Some db2 ∧
    get_side (book_of (orderbook_state db2) "T") "yes" = Some after ∧
    after !! 40 = (if decide (4 ≤ 0) then None else Some 4).
Proof.
  apply (delta_deficit_is_forgotten 1 2 after_two_snapshots "T" "yes" 40
           (-9) 4 None None
           (yes (book_of (orderbook_state after_two_snapshots) "T"))).
  - reflexivity.
  - vm_compute. discriminate.
Defined.

Lemma book_delta_commute (b : book) (s1 s2 : string) (p1 p2 d1 d2 : Z)
    (m1 m2 m12 m21 : gmap Z Z) :
  get_side b s1 = Some m1 → get_side b s2 = Some m2 →
  (s1, p1) ≠ (s2, p2) →
  get_side (set_side b s1 (apply_delta m1 p1 d1)) s2 = Some m12 →
  get_side (set_side b s2 (apply_delta m2 p2 d2)) s1 = Some m21 →
  set_side (set_side b s1 (apply_delta m1 p1 d1)) s2 (apply_delta m12 p2 d2)
  = set_side (set_side b s2 (apply_delta m2 p2 d2)) s1
      (apply_delta m21 p1 d1).
Proof.
  unfold get_side, set_side. intros H1 H2 Hne H12 H21.
  repeat case_decide; simplify_eq/=; try done.
  - f_equal. apply apply_delta_commute. congruence.
  - f_equal. apply apply_delta_commute. congruence.
Qed.

Lemma book_of_insert_ne (st : gmap string book) (t t' : string) (b : book) :
  t ≠ t' → book_of (<[t := b]> st) t' = book_of st t'.
Proof. intros Hne. unfold book_of. by rewrite lookup_insert_ne. Qed.

(** Two deltas that differ in ticker, side or price leave the same
    in-memory state in either order. *)
Theorem deltas_commute (now1 now2 now3 now4 : Z) (db : OrderbookDatabase)
    (t1 t2 : string) (msg1 msg2 : delta_msg) :
  valid_side (side msg1) → valid_side (side msg2) →
  (t1, side msg1, price msg1) ≠ (t2, side msg2, price msg2) →
  ∃ db1 db12 db2 db21,
    update_orderbook_state now1 db t1 msg1 = Some db1 ∧
    update_orderbook_state now2 db1 t2 msg2 = Some db12 ∧
    update_orderbook_state now3 db t2 msg2 = Some db2 ∧
    update_orderbook_state now4 db2 t1 msg1 = Some db21 ∧
    orderbook_state db12 = orderbook_state db21.
Proof.
  intros Hs1 Hs2 Hne.
  destruct (get_side_valid (book_of (orderbook_state db) t1) _ Hs1)
    as [m1 Hm1].
  destruct (get_side_valid (book_of (orderbook_state db) t2) _ Hs2)
    as [m2 Hm2].
  destruct (update_state now1 db t1 msg1 m1 Hm1) as (db1 & H1 & Hst1).
  destruct (update_state now3 db t2 msg2 m2 Hm2) as (db2 & H2 & Hst2).
  destruct (get_side_valid (book_of (orderbook_state db1) t2) _ Hs2)
    as [m12 Hm12].
  destruct (get_side_valid (book_of (orderbook_state db2) t1) _ Hs1)
    as [m21 Hm21].
  destruct (update_state now2 db1 t2 msg2 m12 Hm12) as (db12 & H12 & Hst12).
  destruct (update_state now4 db2 t1 msg1 m21 Hm21) as (db21 & H21 & Hst21).
  exists db1, db12, db2, db21. repeat split; try done.
  rewrite Hst12, Hst21, Hst1, Hst2.
  rewrite Hst1 in Hm12. rewrite Hst2 in Hm21.
  destruct (decide (t1 = t2)) as [<-|Ht].
  - rewrite !book_of_insert in *. rewrite !insert_insert_eq. f_equal.
    apply book_delta_commute; try done. congruence.
  - rewrite !book_of_insert_ne in * by done.
    assert (m12 = m2) as -> by congruence.
    assert (m21 = m1) as -> by congruence.
    by rewrite insert_insert_ne.
Qed.

Lemma deltas_commute_witness :
  ∃ db1 db12 db2 db21,
    update_orderbook_state 1 after_two_snapshots "T"
      (DeltaMsg 40 (-5) "yes" None) = Some db1 ∧
    update_orderbook_state 2 db1 "T" (DeltaMsg 40 6 "no" None) = Some db12 ∧
    update_orderbook_state 3 after_two_snapshots "T"
      (DeltaMsg 40 6 "no" None) = Some db2 ∧
    update_orderbook_state 4 db2 "T" (DeltaMsg 40 (-5) "yes" None)
      = Some db21 ∧
    orderbook_state db12 = orderbook_state db21.
Proof.
  apply (deltas_commute 1 2 3 4 after_two_snapshots "T" "T"
           (DeltaMsg 40 (-5) "yes" None) (DeltaMsg 40 6 "no" None)).
  - left. reflexivity.
  - right. reflexivity.
  - discriminate.
Defined.

End OrderbookMore.

(* ===================================================================== *)
(** * Properties of the websocket client                                  *)
(* ===================================================================== *)

Module CollectorProofs.
Import Orderbook Collector.

(** What holds before a run and is kept by every message holds after
    the run. *)
Lemma run_invariant (P : client → Prop) :
  (∀ e c m c', P c → on_message e c m = Some c' → P c') →
  ∀ ms c c', P c → run c ms = Some c' → P c'.
Proof.
  intros Hstep. induction ms as [|[e m] ms IH]; intros c c' Hc Hrun.
  - cbn in Hrun. by simplify_eq.
  - cbn in Hrun. destruct (on_message e c m) as [c1|] eqn:Hm; [|done].
    eapply IH; [|exact Hrun]. by eapply Hstep.
Qed.

Ltac on_message_cases H :=
  unfold on_message, on_lifecycle, determine, unsubscribe, dispatch,
    record_trade, with_db in H;
  cbn in H;
  repeat
    (match type of H with
     | context [match ?x with _ => _ end] => destruct x eqn:?
     | context [?x ≫= _] => destruct x eqn:?
     end; cbn in H);
  repeat
    (match goal with
     | Hx : (if ?b then _ else _) = _ |- _ => destruct b eqn:?; cbn in Hx
     end);
  simplify_eq/=.

(** A message that names a determined market changes nothing: no row is
    stored, no counter moves and nothing is sent. *)
Theorem determined_market_is_ignored (e : env) (c : client) (m : message)
    (t : string) :
  truthy_string (market_ticker m) = Some t →
  t ∈ determined_markets c →
  on_message e c m = Some c.
Proof.
  intros Ht Hdet. unfold on_message.
  destruct m as [tk st|tk ts d|tk s|tk d|tk|tk];
    cbn [market_ticker fst snd] in Ht |- *;
    try (rewrite Ht; by rewrite decide_True).
  unfold on_lifecycle. rewrite Ht.
  destruct (truthy_string st) as [s|]; cbn [fst snd].
  - rewrite decide_False by (intros [_ Hn]; done). cbn [fst snd].
    by rewrite decide_True.
  - by rewrite decide_True.
Qed.

Lemma determined_market_is_ignored_witness :
  on_message (Env 5 true)
    (Client fresh_database [] 0 0 0 0 ["A"; "B"]%string {["A"%string]}
       {["B"%string]} 3 [] false)
    (OrderbookDelta (Some "A"%string) (DeltaMsg 40 5 "yes" None))
  = Some (Client fresh_database [] 0 0 0 0 ["A"; "B"]%string {["A"%string]}
            {["B"%string]} 3 [] false).
Proof.
  apply (determined_market_is_ignored _ _ _ "A"%string).
  - reflexivity.
  - vm_compute. reflexivity.
Defined.

(** *** What one message does to the sets and to the socket *)

Lemma on_message_sets (e : env) (c c' : client) (m : message) :
  on_message e c m = Some c' →
  market_tickers c' = market_tickers c ∧
  ((determined_markets c' = determined_markets c ∧
    active_markets c' = active_markets c ∧
    sent c' = sent c ∧ message_id c' = message_id c ∧
    closed c' = closed c) ∨
   (∃ t, (t ∉ determined_markets c) ∧
         determined_markets c' = {[t]} ∪ determined_markets c ∧
         active_markets c' = active_markets c ∖ {[t]} ∧
         ((send_ok e = false ∧ sent c' = sent c ∧
           message_id c' = message_id c) ∨
          (send_ok e = true ∧
           sent c' =
             sent c ++
               [UnsubscribeMessage (message_id c)
                  ["trade"; "orderbook_delta"; "market_lifecycle_v2"]%string
                  (Some [t])] ∧
           message_id c' = message_id c + 1)) ∧
         closed c' =
           (if decide (size (active_markets c') = 0%nat) then true
            else closed c))).
Proof.
  intros H. on_message_cases H; (split; [reflexivity|]);
    try (left; repeat split; reflexivity);
    right; eexists;
    (split; [eapply proj2; eassumption|]);
    (split; [reflexivity|]); (split; [reflexivity|]);
    (split;
     [first [left; repeat split; (assumption || reflexivity)
            |right; repeat split; (assumption || reflexivity)]|]);
    repeat match goal with
           | Hd : decide _ = _ |- _ => rewrite Hd; clear Hd
           end;
    reflexivity.
Qed.

(** *** What one message does to the tables and to the counters *)

Lemma on_message_tables (e : env) (c c' : client) (m : message) :
  on_message e c m = Some c' →
  (db c' = db c ∧ trades c' = trades c ∧
   trade_count c' = trade_count c ∧
   snapshot_count c' = snapshot_count c ∧
   delta_count c' = delta_count c) ∨
  (∃ t ts d,
     (t ∉ determined_markets c) ∧
     db c' = db c ∧ trades c' = trades c ++ [TradeRecord ts t d] ∧
     trade_count c' = trade_count c + 1 ∧
     snapshot_count c' = snapshot_count c ∧
     delta_count c' = delta_count c) ∨
  (∃ t s,
     (t ∉ determined_markets c) ∧
     db c' = initialize_orderbook_from_snapshot (now e) (db c) t s ∧
     trades c' = trades c ∧ trade_count c' = trade_count c ∧
     snapshot_count c' = snapshot_count c + 1 ∧
     delta_count c' = delta_count c) ∨
  (∃ t d,
     (t ∉ determined_markets c) ∧
     update_orderbook_state (now e) (db c) t d = Some (db c') ∧
     trades c' = trades c ∧ trade_count c' = trade_count c ∧
     snapshot_count c' = snapshot_count c ∧
     delta_count c' = delta_count c + 1).
Proof.
  intros H. on_message_cases H;
    try (left; repeat split; (reflexivity || lia));
    first
      [ right; left; eexists _, _, _;
        (split; [eassumption|]); repeat split; (reflexivity || lia)
      | right; right; left; eexists _, _;
        (split; [eassumption|]); repeat split; (reflexivity || lia)
      | right; right; right; eexists _, _;
        (split; [eassumption|]); repeat split;
        (eassumption || reflexivity || lia) ].
Qed.

(** *** The sets of markets *)

Lemma determined_grows (e : env) (c c' : client) (m : message) (t : string) :
  on_message e c m = Some c' →
  t ∈ determined_markets c → t ∈ determined_markets c'.
Proof.
  intros H Ht.
  destruct (on_message_sets e c c' m H)
    as [_ [(-> & _)|(t' & _ & -> & _)]]; set_solver.
Qed.

(** Over any run of a new client, the active markets are exactly the
    subscribed markets that have not been determined. *)
Theorem active_is_subscribed_minus_determined (db0 : OrderbookDatabase)
    (trades0 : list trade_record) (tickers : list string) (first_id : Z)
    (ms : list (env * message)) (c : client) :
  run (new_client db0 trades0 tickers first_id) ms = Some c →
  market_tickers c = tickers ∧
  active_markets c = list_to_set tickers ∖ determined_markets c.
Proof.
  apply (run_invariant
           (fun c => market_tickers c = tickers ∧
                     active_markets c =
                       list_to_set tickers ∖ determined_markets c)).
  - intros e c1 m c2 [Hmt Hact] Hm.
    destruct (on_message_sets e c1 c2 m Hm)
      as [-> [(-> & -> & _)|(t & _ & -> & -> & _)]].
    + done.
    + split; [done|]. rewrite Hact. set_solver.
  - split; [done|]. cbn. set_solver.
Qed.

Lemma active_is_subscribed_minus_determined_witness :
  market_tickers
    (default (new_client fresh_database [] ["A"; "B"]%string 1)
       (run (new_client fresh_database [] ["A"; "B"]%string 1)
          [(Env 10 true, Lifecycle (Some "A") (Some "closed"))%string]))
  = ["A"; "B"]%string ∧
  active_markets
    (default (new_client fresh_database [] ["A"; "B"]%string 1)
       (run (new_client fresh_database [] ["A"; "B"]%string 1)
          [(Env 10 true, Lifecycle (Some "A") (Some "closed"))%string]))
  = list_to_set ["A"; "B"]%string ∖
    determined_markets
      (default (new_client fresh_database [] ["A"; "B"]%string 1)
         (run (new_client fresh_database [] ["A"; "B"]%string 1)
            [(Env 10 true, Lifecycle (Some "A") (Some "closed"))%string])).
Proof.
  apply (active_is_subscribed_minus_determined fresh_database []
           ["A"; "B"]%string 1
           [(Env 10 true, Lifecycle (Some "A") (Some "closed"))%string]).
  vm_compute. reflexivity.
Defined.

(** The connection is closed exactly when some market has been
    determined and no market is active any more. *)
Theorem closed_when_all_determined (db0 : OrderbookDatabase)
    (trades0 : list trade_record) (tickers : list string) (first_id : Z)
    (ms : list (env * message)) (c : client) :
  run (new_client db0 trades0 tickers first_id) ms = Some c →
  (closed c = true ↔
   active_markets c = ∅ ∧ determined_markets c ≠ ∅).
Proof.
  apply (run_invariant
           (fun c => closed c = true ↔
                     active_markets c = ∅ ∧ determined_markets c ≠ ∅)).
  - intros e c1 m c2 Hinv Hm.
    destruct (on_message_sets e c1 c2 m Hm)
      as [_ [(-> & -> & _ & _ & ->)|(t & _ & Hdet & Hact & _ & ->)]];
      [done|].
    destruct (decide (size (active_markets c2) = 0%nat)) as [Hz|Hnz].
    + apply size_empty_iff, leibniz_equiv in Hz.
      split; [|done]. intros _. split; [done|]. rewrite Hdet. set_solver.
    + assert (active_markets c2 ≠ ∅) as Hne.
      { intros Hemp. apply Hnz. rewrite Hemp. apply size_empty. }
      split.
      * intros Hcl. apply Hinv in Hcl as [Hemp _].
        destruct Hne. rewrite Hact, Hemp. set_solver.
      * intros [Hemp _]. done.
  - cbn. split; [done|]. intros [_ Hne]. done.
Qed.

Lemma closed_when_all_determined_witness :
  closed
    (default (new_client fresh_database [] ["A"]%string 1)
       (run (new_client fresh_database [] ["A"]%string 1)
          [(Env 10 true, Lifecycle (Some "A") (Some "settled"))%string]))
  = true.
Proof.
  apply (closed_when_all_determined fresh_database [] ["A"]%string 1
           [(Env 10 true, Lifecycle (Some "A") (Some "settled"))%string]).
  - vm_compute. reflexivity.
  - split; vm_compute; [reflexivity|discriminate].
Defined.

(** *** Unsubscribing *)

Lemma unsubscribed_snoc (c : client) (u : unsubscribe_message)
    (l : list unsubscribe_message) :
  mjoin ((fun m => default [] (um_market_tickers m)) <$> (l ++ [u]))
  = mjoin ((fun m => default [] (um_market_tickers m)) <$> l)
      ++ default [] (um_market_tickers u).
Proof. rewrite fmap_app, join_app. cbn. by rewrite app_nil_r. Qed.

(** Over any run of a new client, no market is unsubscribed twice, only
    determined markets are unsubscribed, and the message id has advanced
    by one per message sent. *)
Theorem unsubscribed_at_most_once (db0 : OrderbookDatabase)
    (trades0 : list trade_record) (tickers : list string) (first_id : Z)
    (ms : list (env * message)) (c : client) :
  run (new_client db0 trades0 tickers first_id) ms = Some c →
  NoDup (unsubscribed c) ∧
  (∀ t, t ∈ unsubscribed c → t ∈ determined_markets c) ∧
  message_id c = first_id + Z.of_nat (length (sent c)) ∧
  um_id <$> sent c = (fun i => first_id + Z.of_nat i) <$> seq 0 (length (sent c)).
Proof.
  apply (run_invariant
           (fun c => NoDup (unsubscribed c) ∧
                     (∀ t, t ∈ unsubscribed c → t ∈ determined_markets c) ∧
                     message_id c = first_id + Z.of_nat (length (sent c)) ∧
                     um_id <$> sent c =
                       (fun i => first_id + Z.of_nat i)
                         <$> seq 0 (length (sent c)))).
  - intros e c1 m c2 (Hnd & Hsub & Hid & Hids) Hm.
    destruct (on_message_sets e c1 c2 m Hm)
      as [_ [(Hd & _ & Hs & Hi & _)|(t & Ht & Hd & _ & Hsend & _)]].
    + unfold unsubscribed. rewrite Hs, Hi, Hd. done.
    + destruct Hsend as [(_ & Hs & Hi)|(_ & Hs & Hi)].
      * unfold unsubscribed in *. rewrite Hs, Hi, Hd.
        repeat split; try done. intros t' Ht'. set_solver.
      * unfold unsubscribed in *. rewrite Hs, Hi, Hd.
        rewrite (unsubscribed_snoc c1). cbn.
        repeat split.
        -- apply NoDup_app. split; [done|]. split; [|apply NoDup_singleton].
           intros t' Ht' Hin. apply list_elem_of_singleton in Hin as ->.
           by apply Ht, Hsub.
        -- intros t' Ht'. apply elem_of_app in Ht' as [Ht'|Ht'].
           ++ specialize (Hsub t' Ht'). set_solver.
           ++ apply list_elem_of_singleton in Ht' as ->. set_solver.
        -- rewrite length_app. cbn. lia.
        -- rewrite fmap_app, length_app. cbn.
           rewrite seq_app, fmap_app, <- Hids. cbn. by rewrite Hid.
  - cbn. repeat split; [constructor| |lia].
    intros t Ht. by apply elem_of_nil in Ht.
Qed.

Lemma unsubscribed_at_most_once_witness :
  NoDup
    (unsubscribed
       (default (new_client fresh_database [] ["A"; "B"]%string 1)
          (run (new_client fresh_database [] ["A"; "B"]%string 1)
             [(Env 10 true, Lifecycle (Some "A") (Some "closed"));
              (Env 11 true, Lifecycle (Some "A") (Some "settled"))]%string))).
Proof.
  eapply (unsubscribed_at_most_once fresh_database [] ["A"; "B"]%string 1
            [(Env 10 true, Lifecycle (Some "A") (Some "closed"));
             (Env 11 true, Lifecycle (Some "A") (Some "settled"))]%string).
  vm_compute. reflexivity.
Defined.

(** When every send is accepted, each determined market has been
    unsubscribed. *)
Theorem determined_is_unsubscribed (ms : list (env * message))
    (c c' : client) :
  Forall (fun em => send_ok em.1 = true) ms →
  (∀ t, t ∈ determined_markets c → t ∈ unsubscribed c) →
  run c ms = Some c' →
  ∀ t, t ∈ determined_markets c' → t ∈ unsubscribed c'.
Proof.
  revert c. induction ms as [|[e m] ms IH]; intros c Hok Hc Hrun.
  - cbn in Hrun. by simplify_eq.
  - apply Forall_cons in Hok as [He Hok]. cbn in He, Hrun.
    destruct (on_message e c m) as [c1|] eqn:Hm; [|done].
    apply (IH c1); [done| |done].
    destruct (on_message_sets e c c1 m Hm)
      as [_ [(Hd & _ & Hs & _)|(t & Ht & Hd & _ & Hsend & _)]].
    + unfold unsubscribed in *. by rewrite Hs, Hd.
    + destruct Hsend as [(Hf & _)|(_ & Hs & _)]; [congruence|].
      unfold unsubscribed in *. rewrite Hs, Hd, (unsubscribed_snoc c).
      cbn. intros t' Ht'. apply elem_of_app.
      apply elem_of_union in Ht' as [Ht'|Ht'].
      * right. apply elem_of_singleton in Ht' as ->.
        by apply list_elem_of_singleton.
      * left. by apply Hc.
Qed.

Lemma determined_is_unsubscribed_witness :
  "A"%string ∈
    unsubscribed
      (default (new_client fresh_database [] ["A"; "B"]%string 1)
         (run (new_client fresh_database [] ["A"; "B"]%string 1)
            [(Env 10 true, Lifecycle (Some "A") (Some "closed"))]%string)).
Proof.
  apply (determined_is_unsubscribed
           [(Env 10 true, Lifecycle (Some "A") (Some "closed"))]%string
           (new_client fresh_database [] ["A"; "B"]%string 1)).
  - repeat constructor.
  - intros t Ht. vm_compute in Ht. discriminate.
  - vm_compute. reflexivity.
  - vm_compute. reflexivity.
Defined.

(** *** Counters and tables *)

Lemma initialize_rows (now : Z) (d : OrderbookDatabase) (t : string)
    (s : snapshot) :
  orderbook_snapshots (initialize_orderbook_from_snapshot now d t s)
  = orderbook_snapshots d ++ [StoredRow now t s].
Proof. reflexivity. Qed.

Lemma update_rows (now : Z) (d d' : OrderbookDatabase) (t : string)
    (m : delta_msg) :
  update_orderbook_state now d t m = Some d' →
  ∃ r, orderbook_snapshots d' = orderbook_snapshots d ++ [r] ∧
       row_ticker r = t ∧
       ∀ t', t' ≠ t → orderbook_state d' !! t' = orderbook_state d !! t'.
Proof.
  unfold update_orderbook_state.
  destruct (get_side _ _); [|done]. intros [= <-].
  eexists. split; [reflexivity|]. split; [reflexivity|].
  intros t' Hne. cbn. by rewrite lookup_insert_ne.
Qed.

(** Over any run of a new client, the trade counter is the number of
    rows added to the [trades] table, and the snapshot and delta counters
    together are the number of rows added to the [orderbook_snapshots]
    table. *)
Theorem counters_match_tables (db0 : OrderbookDatabase)
    (trades0 : list trade_record) (tickers : list string) (first_id : Z)
    (ms : list (env * message)) (c : client) :
  run (new_client db0 trades0 tickers first_id) ms = Some c →
  Z.of_nat (length (trades c))
    = Z.of_nat (length trades0) + trade_count c ∧
  Z.of_nat (length (orderbook_snapshots (db c)))
    = Z.of_nat (length (orderbook_snapshots db0))
      + snapshot_count c + delta_count c ∧
  0 ≤ trade_count c ∧ 0 ≤ snapshot_count c ∧ 0 ≤ delta_count c.
Proof.
  apply (run_invariant
           (fun c =>
              Z.of_nat (length (trades c))
                = Z.of_nat (length trades0) + trade_count c ∧
              Z.of_nat (length (orderbook_snapshots (db c)))
                = Z.of_nat (length (orderbook_snapshots db0))
                  + snapshot_count c + delta_count c ∧
              0 ≤ trade_count c ∧ 0 ≤ snapshot_count c ∧
              0 ≤ delta_count c)).
  - intros e c1 m c2 (Ht & Hs & H1 & H2 & H3) Hm.
    destruct (on_message_tables e c1 c2 m Hm)
      as [(-> & -> & -> & -> & ->)
         |[(t & ts0 & d & _ & -> & -> & -> & -> & ->)
          |[(t & s & _ & -> & -> & -> & -> & ->)
           |(t & d & _ & Hup & -> & -> & -> & ->)]]].
    + done.
    + rewrite length_app. cbn. lia.
    + rewrite initialize_rows, length_app. cbn. lia.
    + destruct (update_rows _ _ _ _ _ Hup) as (r & -> & _).
      rewrite length_app. cbn. lia.
  - cbn. lia.
Qed.

Lemma counters_match_tables_witness :
  Z.of_nat
    (length
       (orderbook_snapshots
          (db (default (new_client fresh_database [] ["A"]%string 1)
                 (run (new_client fresh_database [] ["A"]%string 1)
                    [(Env 10 true,
                      OrderbookDelta (Some "A")
                        (DeltaMsg 40 5 "yes" None))]%string)))))
  = 1.
Proof.
  destruct (counters_match_tables fresh_database [] ["A"]%string 1
              [(Env 10 true,
                OrderbookDelta (Some "A") (DeltaMsg 40 5 "yes" None))]%string
              (default (new_client fresh_database [] ["A"]%string 1)
                 (run (new_client fresh_database [] ["A"]%string 1)
                    [(Env 10 true,
                      OrderbookDelta (Some "A")
                        (DeltaMsg 40 5 "yes" None))]%string)))
    as (_ & H & _).
  - vm_compute. reflexivity.
  - rewrite H. vm_compute. reflexivity.
Defined.

(** *** Markets that a run leaves alone *)

Lemma filter_snoc_other {A} (P : A → Prop) `{∀ x, Decision (P x)}
    (l : list A) (x : A) :
  ¬ P x → filter P (l ++ [x]) = filter P l.
Proof.
  intros Hx. rewrite filter_app, filter_cons_False by done.
  by rewrite filter_nil, app_nil_r.
Qed.

Lemma message_leaves_market_alone (e : env) (c c' : client) (m : message)
    (t : string) :
  t ∈ determined_markets c ∨ truthy_string (market_ticker m) ≠ Some t →
  on_message e c m = Some c' →
  orderbook_state (db c') !! t = orderbook_state (db c) !! t ∧
  snapshots_of t c' = snapshots_of t c ∧
  trades_of t c' = trades_of t c.
Proof.
  intros Ht Hm.
  assert (on_message e c m = Some c') as Hm' by done.
  unfold snapshots_of, trades_of.
  on_message_cases Hm; try done;
    try (split; [done|]; split; [done|];
         apply filter_snoc_other; cbn; set_solver).
  - split; [|split; [|done]].
    + by rewrite lookup_insert_ne by set_solver.
    + apply filter_snoc_other. cbn. set_solver.
  - match goal with
    | Hup : update_orderbook_state _ _ _ _ = Some _ |- _ =>
        destruct (update_rows _ _ _ _ _ Hup) as (r & -> & Hr & Hst)
    end.
    split; [|split; [|done]].
    + apply Hst. set_solver.
    + apply filter_snoc_other. rewrite Hr. set_solver.
Qed.

(** Once a market is determined, no later message changes its book or
    adds a snapshot row or a trade row for it, and it stays determined. *)
Theorem determined_market_is_frozen (ms : list (env * message))
    (c c' : client) (t : string) :
  t ∈ determined_markets c →
  run c ms = Some c' →
  t ∈ determined_markets c' ∧
  orderbook_state (db c') !! t = orderbook_state (db c) !! t ∧
  snapshots_of t c' = snapshots_of t c ∧
  trades_of t c' = trades_of t c.
Proof.
  revert c. induction ms as [|[e m] ms IH]; intros c Ht Hrun.
  - cbn in Hrun. by simplify_eq.
  - cbn in Hrun. destruct (on_message e c m) as [c1|] eqn:Hm; [|done].
    destruct (message_leaves_market_alone e c c1 m t (or_introl Ht) Hm)
      as (H1 & H2 & H3).
    destruct (IH c1) as (H4 & H5 & H6 & H7);
      [by eapply determined_grows|done|].
    by rewrite H5, H6, H7.
Qed.

Lemma determined_market_is_frozen_witness :
  snapshots_of "A"
    (default (new_client fresh_database [] ["A"; "B"]%string 1)
       (run (Client fresh_database [] 0 0 0 0 ["A"; "B"]%string
               {["A"%string]} {["B"%string]} 3 [] false)
          [(Env 10 true,
            OrderbookDelta (Some "A") (DeltaMsg 40 5 "yes" None));
           (Env 11 true,
            OrderbookDelta (Some "B") (DeltaMsg 41 6 "no" None))]%string))
  = snapshots_of "A"
      (Client fresh_database [] 0 0 0 0 ["A"; "B"]%string
         {["A"%string]} {["B"%string]} 3 [] false).
Proof.
  eapply (determined_market_is_frozen
            [(Env 10 true,
              OrderbookDelta (Some "A") (DeltaMsg 40 5 "yes" None));
             (Env 11 true,
              OrderbookDelta (Some "B") (DeltaMsg 41 6 "no" None))]%string).
  - vm_compute. reflexivity.
  - vm_compute. reflexivity.
Defined.

(** A run in which no message names a market leaves the book and the
    rows of that market as they were. *)
Theorem unnamed_market_is_untouched (ms : list (env * message))
    (c c' : client) (t : string) :
  Forall (fun em => truthy_string (market_ticker em.2) ≠ Some t) ms →
  run c ms = Some c' →
  orderbook_state (db c') !! t = orderbook_state (db c) !! t ∧
  snapshots_of t c' = snapshots_of t c ∧
  trades_of t c' = trades_of t c.
Proof.
  revert c. induction ms as [|[e m] ms IH]; intros c Hms Hrun.
  - cbn in Hrun. by simplify_eq.
  - apply Forall_cons in Hms as [Hm0 Hms]. cbn in Hm0, Hrun.
    destruct (on_message e c m) as [c1|] eqn:Hm; [|done].
    destruct (message_leaves_market_alone e c c1 m t (or_intror Hm0) Hm)
      as (H1 & H2 & H3).
    destruct (IH c1) as (H5 & H6 & H7); [done|done|].
    by rewrite H5, H6, H7.
Qed.

Lemma unnamed_market_is_untouched_witness :
  orderbook_state
    (db (default (new_client after_two_snapshots [] ["T"; "B"]%string 1)
           (run (new_client after_two_snapshots [] ["T"; "B"]%string 1)
              [(Env 11 true,
                OrderbookDelta (Some "B")
                  (DeltaMsg 41 6 "no" None))]%string)))
    !! "T"%string
  = orderbook_state (db (new_client after_two_snapshots []
                           ["T"; "B"]%string 1)) !! "T"%string.
Proof.
  eapply (unnamed_market_is_untouched
            [(Env 11 true,
              OrderbookDelta (Some "B") (DeltaMsg 41 6 "no" None))]%string).
  - repeat constructor. discriminate.
  - vm_compute. reflexivity.
Defined.

End CollectorProofs.

(* ===================================================================== *)
(** * Further properties of the slippage and markout analysis             *)
(* ===================================================================== *)

Module SlippageMore.
Import Py Slippage SlippageReport SlippageProofs.

(** *** The join selects the latest snapshot *)

(** In [process_data], the snapshot joined to a trade, and the snapshot
    joined to the trade time plus each interval, is the latest of the
    snapshots with a mid price that is not after that time; no snapshot is
    joined only when all of them are after it. *)
Theorem asof_join_selects_latest (trades_df : list trade_row)
    (snapshots_df : list snapshot_row) :
  let snaps := valid_snapshots snapshots_df in
  let trades := valid_trades trades_df in
  Forall2 (latest_not_after snaps) (timestamp <$> trades)
          (trade_matches trades snaps) ∧
  Forall (fun h =>
            Forall2 (latest_not_after snaps)
                    ((fun t => timestamp t + h) <$> trades)
                    (horizon_matches h trades snaps))
         intervals.
Proof.
  cbn zeta.
  assert (StronglySorted snap_le (valid_snapshots snapshots_df)) as Hs
    by apply sort_snapshots_sorted.
  assert (∀ l : list Z,
            Forall2 (latest_not_after (valid_snapshots snapshots_df)) l
              ((fun t => asof t (valid_snapshots snapshots_df)) <$> l))
    as Hall.
  { induction l; constructor; [by apply asof_latest|done]. }
  split.
  - unfold trade_matches.
    rewrite merge_asof_asof; [done| |done].
    apply sort_trades_timestamps_sorted.
  - apply Forall_forall. intros h _. unfold horizon_matches.
    rewrite merge_asof_asof; [done| |done].
    apply sort_trades_keys_sorted.
Qed.

(** *** The rows of the result *)

Lemma row_of_trade (snaps : list (Z * Q)) (t : trade) :
  m_timestamp (row_of snaps t) = timestamp t ∧
  m_exec_price (row_of snaps t) = exec_price t ∧
  m_count (row_of snaps t) = trade_count t.
Proof. done. Qed.

(** [process_data] returns one row per trade that has an execution
    price, in ascending order of timestamp, and the rows carry the
    timestamps, prices and counts of exactly those trades. *)
Theorem process_data_keeps_every_trade (trades_df : list trade_row)
    (snapshots_df : list snapshot_row) :
  let rows := process_data trades_df snapshots_df in
  length rows = length (omap parse_trade trades_df) ∧
  StronglySorted Z.le (m_timestamp <$> rows) ∧
  (fun r => Trade (m_timestamp r) (m_exec_price r) (m_count r)) <$> rows
    ≡ₚ omap parse_trade trades_df.
Proof.
  cbn zeta. rewrite process_data_rows.
  unfold valid_trades, sort_trades.
  split; [|split].
  - rewrite length_fmap. apply Permutation_length, merge_sort_Permutation.
  - rewrite <- list_fmap_compose.
    apply sort_trades_timestamps_sorted.
  - rewrite <- list_fmap_compose.
    set (sorted := merge_sort trade_le (omap parse_trade trades_df)).
    assert (((fun r => Trade (m_timestamp r) (m_exec_price r) (m_count r))
             ∘ row_of (valid_snapshots snapshots_df)) <$> sorted = sorted)
      as ->.
    { rewrite <- (list_fmap_id sorted) at 2.
      apply list_fmap_ext. intros _ [ts p c] _. done. }
    apply merge_sort_Permutation.
Qed.

(** *** Markouts always have a value *)

Lemma markout_of_is_Some (side : Z) (exec : Q) (future_mid : option Q) :
  (side ≠ 0 → is_Some future_mid) → is_Some (markout_of side exec future_mid).
Proof.
  intros Hdef. unfold markout_of.
  destruct (Z.eqb_spec side 1) as [->|].
  - destruct Hdef as [f ->]; [done|]. by eexists.
  - destruct (Z.eqb_spec side (-1)) as [->|]; [|by eexists].
    destruct Hdef as [f ->]; [done|]. by eexists.
Qed.

(** In every row of [process_data], each markout column holds a number
    (never NaN), also for a trade without a mid price; and a trade that
    has a mid price at trade time has a future mid price at every
    interval. *)
Theorem markout_is_never_nan (trades_df : list trade_row)
    (snapshots_df : list snapshot_row) (r : merged_row) :
  r ∈ process_data trades_df snapshots_df →
  (m_markout r).*1 = intervals ∧
  (m_future_mid r).*1 = intervals ∧
  Forall (fun hv => is_Some hv.2) (m_markout r) ∧
  (is_Some (m_mid_price r) →
   Forall (fun hv => is_Some hv.2) (m_future_mid r)).
Proof.
  intros Hr. apply elem_of_process_data in Hr as (t & -> & _).
  set (snaps := valid_snapshots snapshots_df).
  unfold row_of, build_row.
  cbn [m_markout m_future_mid m_mid_price fst snd].
  assert (∀ h, h ∈ intervals → is_Some (snd <$> asof (timestamp t) snaps) →
               is_Some (snd <$> asof (timestamp t + h) snaps)) as Hfut.
  { intros h Hh. apply future_mid_defined. by apply intervals_nonneg. }
  split; [|split; [|split]].
  - rewrite <- !list_fmap_compose. rewrite <- (list_fmap_id intervals) at 2.
    by apply list_fmap_ext.
  - rewrite <- !list_fmap_compose. rewrite <- (list_fmap_id intervals) at 2.
    by apply list_fmap_ext.
  - rewrite <- list_fmap_compose. apply Forall_fmap, Forall_forall.
    intros h Hh. cbn. apply markout_of_is_Some. intros Hside.
    apply Hfut; [done|]. by eapply side_of_nonzero.
  - intros Hmid. apply Forall_fmap, Forall_forall. intros h Hh. cbn.
    by apply Hfut.
Qed.

Lemma markout_is_never_nan_witness :
  Forall (fun hv => is_Some hv.2)
    (m_markout (row_of (valid_snapshots example_snapshots) (Trade 5 50 3))).
Proof.
  eapply (markout_is_never_nan [early_trade; late_trade] example_snapshots).
  vm_compute. apply list_elem_of_here.
Defined.

End SlippageMore.

(* ===================================================================== *)
(** * Properties of the aggregates of [plot_results]                      *)
(* ===================================================================== *)

Module SlippageReportProofs.
Import Py Slippage SlippageReport.

(** *** Hour buckets *)

Lemma hour_bucket_spec (ts hour : Z) :
  hour_bucket ts = hour ↔
  hour ≤ ts < hour + 3600 ∧ hour `mod` 3600 = 0.
Proof.
  unfold hour_bucket. split.
  - intros <-. pose proof (Z.mod_pos_bound ts 3600).
    split; [lia|].
    rewrite Zminus_mod, Zmod_mod, Z.sub_diag. done.
  - intros [Hb Hm].
    assert (hour = 3600 * (hour `div` 3600)) as Hh.
    { pose proof (Z.div_mod hour 3600). lia. }
    assert (ts `div` 3600 = hour `div` 3600) as Hd.
    { symmetry. apply (Z.div_unique ts 3600 _ (ts - hour)); lia. }
    pose proof (Z.div_mod ts 3600). lia.
Qed.

Lemma elem_of_hour_group (rows : list merged_row) (hour : Z)
    (r : merged_row) :
  r ∈ hour_group rows hour ↔
  r ∈ rows ∧ hour ≤ m_timestamp r < hour + 3600 ∧ hour `mod` 3600 = 0.
Proof.
  unfold hour_group. rewrite list_elem_of_filter, hour_bucket_spec. tauto.
Qed.

Lemma elem_of_unique_hours (rows : list merged_row) (hour : Z) :
  hour ∈ unique_hours rows ↔
  ∃ r, r ∈ rows ∧ hour_bucket (m_timestamp r) = hour.
Proof.
  unfold unique_hours.
  rewrite merge_sort_Permutation, elem_of_remove_dups, list_elem_of_fmap.
  split; intros (r & H1 & H2); exists r; done.
Qed.

Lemma unique_hours_sorted (rows : list merged_row) :
  StronglySorted Z.le (unique_hours rows) ∧ NoDup (unique_hours rows).
Proof.
  unfold unique_hours. split.
  - apply StronglySorted_merge_sort; apply _.
  - rewrite merge_sort_Permutation. apply NoDup_remove_dups.
Qed.

Lemma sorted_nodup_lt (l : list Z) :
  StronglySorted Z.le l → NoDup l → StronglySorted Z.lt l.
Proof.
  induction 1 as [|x l Hs IH Hall]; intros Hnd; [constructor|].
  apply NoDup_cons in Hnd as [Hnot Hnd].
  constructor; [by apply IH|].
  apply Forall_forall. intros y Hy.
  rewrite Forall_forall in Hall. specialize (Hall y Hy).
  assert (x ≠ y) by (by intros ->). lia.
Qed.

Lemma omap_keys_sorted {B} (skip : Z → bool) (g : Z → B) (l : list Z) :
  StronglySorted Z.lt l →
  StronglySorted Z.lt
    (omap (fun h => if skip h then None else Some (h, g h)) l).*1.
Proof.
  induction 1 as [|h l Hs IH Hall]; [constructor|].
  cbn. destruct (skip h); cbn; [done|].
  constructor; [done|].
  apply Forall_forall. intros k Hk.
  apply list_elem_of_fmap in Hk as ([k' y] & -> & Hk).
  apply list_elem_of_omap in Hk as (h' & Hh' & Hx).
  destruct (skip h'); cbn in Hx; [done|]. injection Hx as <- _.
  rewrite Forall_forall in Hall. by apply Hall.
Qed.

(** The hourly plots hold one curve per hour that has at least 5 trades,
    in strictly ascending order of hour, computed from exactly the rows
    whose timestamp lies in that hour; hours with fewer than 5 trades
    have no curve. *)
Theorem hourly_curves_spec (curve : list merged_row → list (option Q))
    (rows : list merged_row) :
  StronglySorted Z.lt (hourly_curves curve rows).*1 ∧
  (∀ hour c,
     (hour, c) ∈ hourly_curves curve rows ↔
     (5 ≤ length (hour_group rows hour))%nat ∧
     c = curve (hour_group rows hour)) ∧
  (∀ hour r,
     r ∈ hour_group rows hour ↔
     r ∈ rows ∧ hour ≤ m_timestamp r < hour + 3600 ∧ hour `mod` 3600 = 0).
Proof.
  split; [|split].
  - unfold hourly_curves.
    pose proof (unique_hours_sorted rows) as [Hs Hnd].
    exact (omap_keys_sorted
             (fun hour => (length (hour_group rows hour) <? 5)%nat)
             (fun hour => curve (hour_group rows hour))
             (unique_hours rows) (sorted_nodup_lt _ Hs Hnd)).
  - intros hour c. unfold hourly_curves.
    rewrite list_elem_of_omap. split.
    + intros (h & Hh & Hc). cbv beta zeta in Hc.
      destruct (Nat.ltb_spec (length (hour_group rows h)) 5); [done|].
      injection Hc as -> ->. done.
    + intros [Hlen ->]. exists hour. split.
      * apply elem_of_unique_hours.
        destruct (hour_group rows hour) as [|r g] eqn:Hg; [cbn in Hlen; lia|].
        exists r.
        assert (r ∈ hour_group rows hour) as Hr
          by (rewrite Hg; apply list_elem_of_here).
        unfold hour_group in Hr. by apply list_elem_of_filter in Hr as [? ?].
      * cbv beta zeta.
        destruct (Nat.ltb_spec (length (hour_group rows hour)) 5);
          [lia|done].
  - apply elem_of_hour_group.
Qed.

End SlippageReportProofs.

(* ===================================================================== *)
(** * Properties of [calculate_metrics] and of the stored snapshots       *)
(* ===================================================================== *)

Module MetricsProofs.
Import Py Predictability Metrics Stored BestPriceProofs.




(** *** The two studies on the same snapshot *)

Lemma py_max_key0_max (ls : list (list Z)) (best : list Z) :
  py_max_key0 ls = Some best →
  ∃ m, (prices ← mapM item0 ls; py_max prices) = Some m ∧
       item0 best = Some m.
Proof.
  intros Hbest.
  assert (is_Some (mapM item0 ls)) as [ps Hps].
  { unfold py_max_key0 in Hbest.
    destruct (mapM (fun x => k ← item0 x; Some (k, x)) ls) as [keyed|] eqn:Hk;
      [|done].
    apply mapM_is_Some.
    assert (Forall (is_Some ∘ (fun x => k ← item0 x; Some (k, x))) ls)
      as Hall by (apply mapM_is_Some; by eexists).
    eapply Forall_impl; [exact Hall|].
    intros x [kx Hkx]. cbn in *. destruct (item0 x); [by eexists|done]. }
  assert (ls ≠ []) as Hne.
  { intros ->. by vm_compute in Hbest. }
  assert (ps ≠ []) as Hpne.
  { intros ->. apply mapM_Some, Forall2_nil_inv_r in Hps. done. }
  destruct (py_max_is_Some ps Hpne) as [m Hm].
  exists m.
  assert ((prices ← mapM item0 ls; py_max prices) = Some m) as Hpm
    by (rewrite Hps; exact Hm).
  split; [done|]. by eapply py_max_key0_price.
Qed.

Lemma bid_side_agrees (ys : list (list Z)) (bid : option Z * option Z)
    (bp : Z) :
  match ys with
  | [] => Some (None, None)
  | _ => best_yes ← py_max_key0 ys;
         best_bid_price ← item0 best_yes;
         best_bid_size ← item1 best_yes;
         Some (Some best_bid_price, Some best_bid_size)
  end = Some bid →
  bid.1 = Some bp →
  match ys with
  | [] => Some 0
  | _ => prices ← mapM item0 ys; py_max prices
  end = Some bp.
Proof.
  intros Hbid Hbp. destruct ys as [|y ys]; [by simplify_eq/=|].
  destruct (py_max_key0 (y :: ys)) as [best|] eqn:Hbest; [|done].
  destruct (py_max_key0_max _ _ Hbest) as (m & Hm & Hprice).
  cbn in Hbid. rewrite Hprice in Hbid. cbn in Hbid.
  destruct (item1 best); cbn in Hbid; [|done].
  simplify_eq/=. exact Hm.
Qed.

Lemma ask_side_agrees (ns : list (list Z)) (ask : option Z * option Z)
    (ap : Z) :
  match ns with
  | [] => Some (None, None)
  | _ => best_no ← py_max_key0 ns;
         best_no_price ← item0 best_no;
         best_no_size ← item1 best_no;
         Some (Some (100 - best_no_price), Some best_no_size)
  end = Some ask →
  ask.1 = Some ap →
  match ns with
  | [] => Some 100
  | _ => prices ← mapM item0 ns;
         best_no_bid ← py_max prices;
         Some (100 - best_no_bid)
  end = Some ap.
Proof.
  intros Hask Hap. destruct ns as [|n ns]; [by simplify_eq/=|].
  destruct (py_max_key0 (n :: ns)) as [best|] eqn:Hbest; [|done].
  destruct (py_max_key0_max _ _ Hbest) as (m & Hm & Hprice).
  cbn in Hask. rewrite Hprice in Hask. cbn in Hask.
  destruct (item1 best); cbn in Hask; [|done].
  injection Hask as <-. cbn in Hap. injection Hap as <-.
  cbv beta iota.
  destruct (mapM item0 (n :: ns)) as [prices|]; [|done].
  change (Some prices ≫= ?f) with (f prices) in Hm |- *.
  cbv beta in Hm |- *. by rewrite Hm.
Qed.

(** Every snapshot that [calculate_metrics] keeps is kept by the
    slippage analysis as well, with the same best bid, the same best ask
    and the same mid price. *)
Theorem kept_snapshot_has_same_mid (row : snapshot_row) (m : metrics_row) :
  metrics_of row = Some m →
  Slippage.get_best_prices (snap_data row)
    = Some (bid_price m, ask_price m) ∧
  Slippage.parse_snapshot_row row
    = Some (snap_timestamp row, mid_price m).
Proof.
  intros Hm. unfold metrics_of, parse_snapshot in Hm.
  destruct (snap_data row) as [data|] eqn:Hdata; [|done].
  destruct (parse_snapshot_try (Some data)) as [l|] eqn:Htry; [|done].
  unfold parse_snapshot_try in Htry.
  change (Some data ≫= ?f) with (f data) in Htry. cbv beta zeta in Htry.
  destruct (match get_list (yes_levels data) with
            | [] => Some (None, None)
            | _ => _
            end) as [bid|] eqn:Hbid; [|done].
  change (Some bid ≫= ?f) with (f bid) in Htry. cbv beta in Htry.
  destruct (match get_list (no_levels data) with
            | [] => Some (None, None)
            | _ => _
            end) as [ask|] eqn:Hask; [|done].
  cbn in Htry. injection Htry as <-. cbn in Hm.
  destruct bid.1 as [bp|] eqn:Hbp; [|done].
  destruct ask.1 as [ap|] eqn:Hap; [|done].
  cbn in Hm. injection Hm as <-. cbn.
  assert (Slippage.get_best_prices (Some data) = Some (bp, ap)) as Hget.
  { unfold Slippage.get_best_prices.
    change (Some data ≫= ?f) with (f data). cbv beta zeta.
    rewrite (bid_side_agrees _ _ _ Hbid Hbp).
    change (Some bp ≫= ?f) with (f bp). cbv beta.
    by rewrite (ask_side_agrees _ _ _ Hask Hap). }
  split; [done|].
  unfold Slippage.parse_snapshot_row. rewrite Hdata, Hget. done.
Qed.

Lemma kept_snapshot_has_same_mid_witness :
  Slippage.parse_snapshot_row
    (SnapshotRow 10 (Some Slippage.example_snapshot))
  = Some (10, 87 # 2).
Proof.
  eapply (kept_snapshot_has_same_mid
            (SnapshotRow 10 (Some Slippage.example_snapshot))
            (MetricsRow 10 45 (Some 3) 42 (Some 10) (87 # 2)
               (Finite (-7 # 13)))).
  vm_compute. reflexivity.
Defined.

(** A snapshot with no level on one of its sides is dropped by
    [calculate_metrics], while the slippage analysis keeps it, taking 0
    for the missing best bid and 100 for the missing best ask. *)
Theorem one_sided_snapshot (ts : Z) (data : snapshot_data) :
  get_list (yes_levels data) = [] ∨ get_list (no_levels data) = [] →
  Forall (fun p => p ≠ []) (get_list (yes_levels data)) →
  Forall (fun p => p ≠ []) (get_list (no_levels data)) →
  metrics_of (SnapshotRow ts (Some data)) = None ∧
  ∃ b a,
    Slippage.parse_snapshot_row (SnapshotRow ts (Some data))
      = Some (ts, (inject_Z (b + a) / 2)%Q) ∧
    (get_list (yes_levels data) = [] → b = 0) ∧
    (get_list (no_levels data) = [] → a = 100).
Proof.
  intros Hside Hy Hn. split.
  - unfold metrics_of, parse_snapshot, parse_snapshot_try. cbn.
    destruct Hside as [-> | ->].
    + cbn. by destruct (match get_list (no_levels data) with
                        | [] => _ | _ => _ end) as [[? ?]|].
    + destruct (match get_list (yes_levels data) with
                | [] => _ | _ => _ end) as [[[?|] ?]|]; done.
  - destruct (get_best_prices_well_formed data Hy Hn)
      as (b & a & Hget & Hb0 & _ & Ha0 & _).
    exists b, a. split; [|done].
    unfold Slippage.parse_snapshot_row. cbn [snap_data snap_timestamp].
    rewrite Hget. done.
Qed.

Lemma one_sided_snapshot_witness :
  metrics_of (SnapshotRow 7 (Some (SnapshotData None (Some [[58; 10]]))))
    = None ∧
  ∃ b a,
    Slippage.parse_snapshot_row
      (SnapshotRow 7 (Some (SnapshotData None (Some [[58; 10]]))))
      = Some (7, (inject_Z (b + a) / 2)%Q) ∧
    (@nil (list Z) = [] → b = 0) ∧
    ([[58; 10]] = [] → a = 100).
Proof.
  apply (one_sided_snapshot 7 (SnapshotData None (Some [[58; 10]]))).
  - left. reflexivity.
  - constructor.
  - repeat constructor. discriminate.
Defined.

End MetricsProofs.

(* ===================================================================== *)
(** * From the persisted snapshots to the analysis                        *)
(* ===================================================================== *)

Module StoredProofs.
Import Orderbook OrderbookLog OrderbookProofs OrderbookMore.
Import Py Stored Predictability Metrics BestPriceProofs MetricsProofs.

Lemma level_prices_json (l : list (Z * Z)) :
  level_prices (level_json <$> l) = l.*1.
Proof.
  unfold level_prices. induction l as [|[p s] l IH]; [done|].
  cbn. by rewrite IH.
Qed.

Lemma levels_json_well_formed (l : list (Z * Z)) :
  Forall (fun p => (2 ≤ length p)%nat) (level_json <$> l).
Proof. apply Forall_fmap, Forall_forall. intros [p s] _. cbn. lia. Qed.

Lemma sorted_items_nil (m : gmap Z Z) : sorted_items m = [] ↔ m = ∅.
Proof.
  unfold sorted_items. rewrite <- map_to_list_empty_iff.
  rewrite <- !Permutation_nil_r. by rewrite merge_sort_Permutation.
Qed.

(** The greatest price of a side of a book. *)
Lemma is_max_keys (m : gmap Z Z) (b : Z) :
  is_max b (sorted_items m).*1 ↔
  is_Some (m !! b) ∧ ∀ p, is_Some (m !! p) → p ≤ b.
Proof.
  assert (∀ p, p ∈ (sorted_items m).*1 ↔ is_Some (m !! p)) as Hkeys.
  { intros p. rewrite list_elem_of_fmap. split.
    - intros ([q s] & -> & Hin). apply elem_of_sorted_items in Hin.
      by eexists.
    - intros [s Hs]. exists (p, s). split; [done|].
      by apply elem_of_sorted_items. }
  unfold is_max. rewrite Hkeys. by setoid_rewrite Hkeys.
Qed.

(** The snapshot that a delta persists is always parsed by
    [get_best_prices]: the best bid is the greatest YES price of the book
    after the delta (0 when it has no YES level) and the best ask is 100
    minus its greatest NO price (100 when it has no NO level). *)
Theorem persisted_snapshot_best_prices (now : Z)
    (db db' : OrderbookDatabase) (t : string) (msg : delta_msg) :
  update_orderbook_state now db t msg = Some db' →
  ∃ r b a,
    last (orderbook_snapshots db') = Some r ∧
    Slippage.get_best_prices (snapshot_json_of (row_snapshot r))
      = Some (b, a) ∧
    (yes (book_of (orderbook_state db') t) = ∅ → b = 0) ∧
    (yes (book_of (orderbook_state db') t) ≠ ∅ →
     is_Some (yes (book_of (orderbook_state db') t) !! b) ∧
     ∀ p, is_Some (yes (book_of (orderbook_state db') t) !! p) → p ≤ b) ∧
    (no (book_of (orderbook_state db') t) = ∅ → a = 100) ∧
    (no (book_of (orderbook_state db') t) ≠ ∅ →
     is_Some (no (book_of (orderbook_state db') t) !! (100 - a)) ∧
     ∀ p, is_Some (no (book_of (orderbook_state db') t) !! p) →
          p ≤ 100 - a).
Proof.
  unfold update_orderbook_state.
  destruct (get_side _ _) as [m|]; [|done]. intros [= <-].
  cbn [orderbook_state orderbook_snapshots]. rewrite book_of_insert.
  set (bk := set_side _ _ _).
  unfold store_orderbook_snapshot. rewrite last_snoc.
  destruct (get_best_prices_well_formed
              (SnapshotData (Some (level_json <$> sorted_items (yes bk)))
                            (Some (level_json <$> sorted_items (no bk)))))
    as (b & a & Hget & Hb0 & Hb & Ha0 & Ha).
  { cbn. eapply Forall_impl; [apply levels_json_well_formed|].
    intros [|? ?]; cbn; [lia|done]. }
  { cbn. eapply Forall_impl; [apply levels_json_well_formed|].
    intros [|? ?]; cbn; [lia|done]. }
  cbn [get_list yes_levels no_levels] in Hb0, Hb, Ha0, Ha.
  rewrite !level_prices_json in *.
  eexists _, b, a. split; [reflexivity|]. split; [exact Hget|].
  split; [|split; [|split]].
  - intros Hemp. apply Hb0.
    apply sorted_items_nil in Hemp. by rewrite Hemp.
  - intros Hne. apply is_max_keys, Hb.
    intros Hnil. apply fmap_nil_inv, sorted_items_nil in Hnil. done.
  - intros Hemp. apply Ha0.
    apply sorted_items_nil in Hemp. by rewrite Hemp.
  - intros Hne. destruct Ha as (mx & Hmx & ->).
    { intros Hnil. apply fmap_nil_inv, sorted_items_nil in Hnil. done. }
    replace (100 - (100 - mx)) with mx by lia.
    by apply is_max_keys.
Qed.

Lemma persisted_snapshot_best_prices_witness :
  ∃ r b a,
    last (orderbook_snapshots
            (default fresh_database
               (update_orderbook_state 9 after_two_snapshots "T"
                  (DeltaMsg 42 7 "yes" None)))) = Some r ∧
    Slippage.get_best_prices (snapshot_json_of (row_snapshot r))
      = Some (b, a) ∧
    b = 45 ∧ a = 42.
Proof.
  destruct (persisted_snapshot_best_prices 9 after_two_snapshots
              (default fresh_database
                 (update_orderbook_state 9 after_two_snapshots "T"
                    (DeltaMsg 42 7 "yes" None)))
              "T" (DeltaMsg 42 7 "yes" None))
    as (r & b & a & Hr & Hget & _).
  - vm_compute. reflexivity.
  - exists r, b, a. split; [exact Hr|]. split; [exact Hget|].
    vm_compute in Hr. injection Hr as <-.
    vm_compute in Hget. by injection Hget as <- <-.
Defined.





End StoredProofs.

(* ===================================================================== *)
(** * The linked market of a base market                                  *)
(* ===================================================================== *)

Module ImbalanceReportProofs.
Import Py ImbalanceReport.

Lemma rsplit_hyphen_Some (s a b : string) :
  rsplit_hyphen s = Some (a, b) →
  s = a +:+ String (Ascii.ascii_of_nat 45) b ∧ rsplit_hyphen b = None.
Proof.
  revert a. induction s as [|c s IH]; intros a; [done|].
  cbn [rsplit_hyphen].
  destruct (rsplit_hyphen s) as [[a' b']|] eqn:Hs.
  - intros [= <- <-]. destruct (IH a' eq_refl) as [-> Hb]. done.
  - destruct (decide (c = Ascii.ascii_of_nat 45)) as [->|]; [|done].
    intros [= <- <-]. done.
Qed.

Lemma rsplit_hyphen_app (a b : string) :
  rsplit_hyphen b = None →
  rsplit_hyphen (a +:+ String (Ascii.ascii_of_nat 45) b) = Some (a, b).
Proof.
  intros Hb. induction a as [|c a IH].
  - change ("" +:+ String (Ascii.ascii_of_nat 45) b)
      with (String (Ascii.ascii_of_nat 45) b).
    cbn [rsplit_hyphen]. rewrite Hb.
    by rewrite decide_True.
  - change (String c a +:+ String (Ascii.ascii_of_nat 45) b)
      with (String c (a +:+ String (Ascii.ascii_of_nat 45) b)).
    cbn [rsplit_hyphen]. by rewrite IH.
Qed.

Lemma head_filter_Some {A} (P : A → Prop) `{!∀ x, Decision (P x)}
    (l : list A) (t : A) :
  head (filter P l) = Some t ↔
  ∃ before after,
    l = before ++ t :: after ∧ P t ∧ Forall (fun x => ¬ P x) before.
Proof.
  split.
  - induction l as [|x l IH]; [done|].
    rewrite filter_cons. destruct (decide (P x)) as [Hx|Hx].
    + intros [= ->]. by exists [], l.
    + intros Hh. destruct (IH Hh) as (before & after & -> & Ht & Hb).
      exists (x :: before), after. split; [done|]. split; [done|].
      by constructor.
  - intros (before & after & -> & Ht & Hb).
    induction Hb as [|x before Hx _ IH].
    + cbn [app]. rewrite filter_cons. by rewrite decide_True.
    + cbn [app]. rewrite filter_cons. by rewrite decide_False.
Qed.

(** The ticker that [find_linked_ticker] returns is the first row of the
    query for the base ticker's event prefix that is not the base ticker
    itself; the event prefix is the base ticker up to its last hyphen. *)
Theorem linked_is_another_ticker (query : string → list string)
    (base_ticker t : string) :
  find_linked_ticker query base_ticker = Some t →
  t ≠ base_ticker ∧
  ∃ event_prefix suffix before after,
    base_ticker = event_prefix +:+ "-" +:+ suffix ∧
    rsplit_hyphen suffix = None ∧
    query (event_prefix +:+ "%") = before ++ t :: after ∧
    Forall (fun x => x = base_ticker) before.
Proof.
  unfold find_linked_ticker.
  destruct (rsplit_hyphen base_ticker) as [[event_prefix suffix]|] eqn:Hs;
    [|done].
  cbv zeta. intros Hh.
  apply head_filter_Some in Hh as (before & after & Hq & Ht & Hb).
  split; [done|].
  exists event_prefix, suffix, before, after.
  apply rsplit_hyphen_Some in Hs as [-> Hsuf].
  split; [done|]. split; [done|]. split; [done|].
  eapply Forall_impl; [exact Hb|].
  intros x Hx. cbv beta in Hx.
  destruct (decide (x = event_prefix +:+ String (Ascii.ascii_of_nat 45) suffix));
    [done|]. by destruct Hx.
Qed.

Lemma linked_is_another_ticker_witness :
  "EV-B"%string ≠ "EV-A"%string ∧
  ∃ event_prefix suffix before after,
    "EV-A"%string = event_prefix +:+ "-" +:+ suffix ∧
    rsplit_hyphen suffix = None ∧
    (fun _ => ["EV-A"; "EV-B"; "EV-C"]%string) (event_prefix +:+ "%")
      = before ++ "EV-B"%string :: after ∧
    Forall (fun x => x = "EV-A"%string) before.
Proof.
  assert (find_linked_ticker (fun _ => ["EV-A"; "EV-B"; "EV-C"]%string)
            "EV-A" = Some "EV-B"%string) as H by reflexivity.
  exact (linked_is_another_ticker
           (fun _ => ["EV-A"; "EV-B"; "EV-C"]%string) "EV-A" "EV-B" H).
Defined.

(** A base ticker without a hyphen has no linked ticker, whatever the
    database holds; a base ticker with a hyphen has one exactly when the
    query for its event prefix returns a row other than the base
    ticker. *)
Theorem linked_ticker_exists (query : string → list string)
    (base_ticker : string) :
  (rsplit_hyphen base_ticker = None →
   find_linked_ticker query base_ticker = None) ∧
  (∀ event_prefix suffix,
     rsplit_hyphen suffix = None →
     base_ticker = event_prefix +:+ "-" +:+ suffix →
     (is_Some (find_linked_ticker query base_ticker) ↔
      ∃ t, t ∈ query (event_prefix +:+ "%") ∧ t ≠ base_ticker)).
Proof.
  split.
  - intros Hs. unfold find_linked_ticker. by rewrite Hs.
  - intros event_prefix suffix Hsuf ->.
    unfold find_linked_ticker.
    change (event_prefix +:+ "-" +:+ suffix)
      with (event_prefix +:+ String (Ascii.ascii_of_nat 45) suffix).
    rewrite (rsplit_hyphen_app _ _ Hsuf). cbv zeta.
    set (base := event_prefix +:+ String (Ascii.ascii_of_nat 45) suffix).
    split.
    + intros [t Ht]. exists t.
      apply head_Some_elem_of, list_elem_of_filter in Ht as [? ?]. done.
    + intros (t & Ht & Hne).
      destruct (filter (fun t0 => t0 ≠ base) (query (event_prefix +:+ "%")))
        as [|x l] eqn:Hf.
      * assert (t ∈ filter (fun t0 => t0 ≠ base)
                         (query (event_prefix +:+ "%"))) as Hin
          by (by apply list_elem_of_filter).
        rewrite Hf in Hin. by apply elem_of_nil in Hin.
      * by eexists.
Qed.

Lemma linked_ticker_exists_witness :
  is_Some (find_linked_ticker (fun _ => ["EV-A"; "EV-B"]%string) "EV-A") ↔
  ∃ t, t ∈ (fun _ => ["EV-A"; "EV-B"]%string) ("EV" +:+ "%") ∧
       t ≠ "EV-A"%string.
Proof.
  apply (proj2 (linked_ticker_exists
                  (fun _ => ["EV-A"; "EV-B"]%string) "EV-A") "EV" "A");
    reflexivity.
Defined.

End ImbalanceReportProofs.
